(** * gopyte: the screen layers of the terminal emulator

    A shallow embedding of the four screen layers of gopyte
    (NativeScreen, HistoryScreen, AlternateScreen, WideCharScreen) and the
    properties of cursor placement, scrollback capture, alternate-buffer
    switching and wide-character bookkeeping that the specification states
    about them.

    Conventions of the embedding.

    - Go's [int] is a 64-bit signed integer: it is a [Z], and the additions
      and subtractions of the code are [iadd] and [isub], which wrap.
    - A [rune] is its code point.  A [string] that is drawn is the list of
      the code points that [range] yields.
    - Slices of slices ([[][]rune], [[][]Attributes], [[][]int]), maps and
      [*list.List] are reference objects in Go: assigning one to a field
      shares it.  They live in a store [Mem]; the fields of the screens hold
      locations.  Rows are held by value inside their grid: the code never
      keeps two live references to one row (a scroll duplicates a row header
      and overwrites the duplicate with a fresh row at once).
    - Struct embedding is a record field ([native], [hist], [alt]) declared
      as a coercion, so that [cursor h] reads like [h.cursor].  A method
      called through an embedded struct runs on the embedded value; Go has
      no dynamic dispatch between the layers.
    - Indexing outside a slice panics in Go.  Here a write outside does
      nothing and a read outside yields the zero value; the theorems are
      stated for well-formed screens, where every index the code uses is
      inside. *)

From Stdlib Require Import ZArith List String Bool Lia.
From stdpp Require Import base tactics option list list_numbers gmap strings pretty.

Local Open Scope Z_scope.

(** ** Machine integers *)

Definition int_min : Z := - 2 ^ 63.
Definition int_max : Z := 2 ^ 63 - 1.

Definition wrap (z : Z) : Z := (z + 2 ^ 63) mod 2 ^ 64 - 2 ^ 63.

Definition iadd (a b : Z) : Z := wrap (a + b).
Definition isub (a b : Z) : Z := wrap (a - b).

Definition is_int (z : Z) : Prop := int_min <= z <= int_max.

(** ** Values *)

Definition rune := Z.

Definition space : rune := 32.

Record Attributes := mkAttributes {
  Fg : string;
  Bg : string;
  Bold : bool;
  Italics : bool;
  Underscore : bool;
  Strikethrough : bool;
  Reverse : bool;
  Blink : bool
}.

(** The zero value [Attributes{}]. *)
Definition zeroAttributes : Attributes :=
  mkAttributes "" "" false false false false false false.

Definition DefaultAttributes : Attributes :=
  mkAttributes "default" "default" false false false false false false.

Record Cursor := mkCursor {
  X : Z;
  Y : Z;
  Attrs : Attributes;
  Hidden : bool
}.

Definition zeroCursor : Cursor := mkCursor 0 0 zeroAttributes false.

Definition setX (x : Z) (c : Cursor) : Cursor := mkCursor x (Y c) (Attrs c) (Hidden c).
Definition setY (y : Z) (c : Cursor) : Cursor := mkCursor (X c) y (Attrs c) (Hidden c).
Definition setAttrs (a : Attributes) (c : Cursor) : Cursor := mkCursor (X c) (Y c) a (Hidden c).
Definition setHidden (b : bool) (c : Cursor) : Cursor := mkCursor (X c) (Y c) (Attrs c) b.

(** [HistoryLine]: its fields are [Chars] and [Attrs] in the source; the second
    is [LineAttrs] here, [Attrs] being the cursor's field. *)
Record HistoryLine := mkHistoryLine {
  Chars : list rune;
  LineAttrs : list Attributes
}.

(** ** Slices *)

(** [make([]T, n)]: [n] zero values. *)
Definition make {A} (zero : A) (n : Z) : list A := replicate (Z.to_nat n) zero.

(** [copy(dst, src)]: the first [min(len(dst), len(src))] elements of [dst]
    are replaced by those of [src]; the result is the new [dst]. *)
Definition copy {A} (dst src : list A) : list A :=
  take (length dst) src ++ drop (length src) dst.

(** [g[y]]. *)
Definition row {A} (g : list (list A)) (y : Z) : list A :=
  if 0 <=? y then default [] (g !! Z.to_nat y) else [].

(** [g[y] = r]. *)
Definition set_row {A} (g : list (list A)) (y : Z) (r : list A) : list (list A) :=
  if 0 <=? y then <[Z.to_nat y := r]> g else g.

(** [g[y][x]]. *)
Definition cell {A} (zero : A) (g : list (list A)) (y x : Z) : A :=
  if 0 <=? x then default zero (row g y !! Z.to_nat x) else zero.

(** [g[y][x] = v]. *)
Definition set_cell {A} (g : list (list A)) (y x : Z) (v : A) : list (list A) :=
  if (0 <=? y) && (0 <=? x)
  then alter (fun r => <[Z.to_nat x := v]> r) (Z.to_nat y) g
  else g.

(** [l[lo:hi]]. *)
Definition slice {A} (l : list A) (lo hi : Z) : list A :=
  drop (Z.to_nat lo) (take (Z.to_nat hi) l).

(** [copy(l[lo:], src)]: the new [l]. *)
Definition copy_to {A} (l : list A) (lo : Z) (src : list A) : list A :=
  take (Z.to_nat lo) l ++ copy (drop (Z.to_nat lo) l) src.

(** [l[x] = v]. *)
Definition set_elem {A} (l : list A) (x : Z) (v : A) : list A :=
  if 0 <=? x then <[Z.to_nat x := v]> l else l.

(** [for i := lo; i < hi; i++ { body }] on a state [S]. *)
Definition for_range {S} (lo hi : Z) (body : Z -> S -> S) (s : S) : S :=
  fold_left (fun s i => body i s) (seqZ lo (hi - lo)) s.

(** [for x := 0; x < columns; x++ { g[y][x] = v }]. *)
Definition fill_row {A} (columns : Z) (y : Z) (v : A) (g : list (list A)) : list (list A) :=
  for_range 0 columns (fun x g => set_cell g y x v) g.

(** The two nested loops that write [v] into every cell of the
    [lines] x [columns] rectangle. *)
Definition fill_grid {A} (columns lines : Z) (v : A) (g : list (list A)) : list (list A) :=
  for_range 0 lines (fun y g => fill_row columns y v g) g.

(** ** The store *)

(** A location, or [nil]. *)
Definition loc := option nat.
Definition nil : loc := None.

Record Mem := mkMem {
  runes : list (list (list rune));        (* the [][]rune objects *)
  styles : list (list (list Attributes)); (* the [][]Attributes objects *)
  widths : list (list (list Z));          (* the [][]int objects *)
  tabmaps : list (gset Z);                (* the map[int]bool objects: the keys mapped to true *)
  lists : list (list HistoryLine)         (* the *list.List objects, front first *)
}.

Definition emptyMem : Mem := mkMem [] [] [] [] [].

Definition load {A} (zero : A) (h : list A) (r : loc) : A :=
  match r with
  | Some i => default zero (h !! i)
  | None => zero
  end.
Definition store {A} (h : list A) (r : loc) (v : A) : list A :=
  match r with
  | Some i => <[i := v]> h
  | None => h
  end.

Definition set_runes (v : list (list (list rune))) (m : Mem) : Mem :=
  mkMem v (styles m) (widths m) (tabmaps m) (lists m).
Definition set_styles (v : list (list (list Attributes))) (m : Mem) : Mem :=
  mkMem (runes m) v (widths m) (tabmaps m) (lists m).
Definition set_widths (v : list (list (list Z))) (m : Mem) : Mem :=
  mkMem (runes m) (styles m) v (tabmaps m) (lists m).
Definition set_tabmaps (v : list (gset Z)) (m : Mem) : Mem :=
  mkMem (runes m) (styles m) (widths m) v (lists m).
Definition set_lists (v : list (list HistoryLine)) (m : Mem) : Mem :=
  mkMem (runes m) (styles m) (widths m) (tabmaps m) v.

(** Allocation of a fresh object: its location is the next free one. *)
Definition new_runes (g : list (list rune)) (m : Mem) : Mem * loc :=
  (set_runes (runes m ++ [g]) m, Some (length (runes m))).
Definition new_styles (g : list (list Attributes)) (m : Mem) : Mem * loc :=
  (set_styles (styles m ++ [g]) m, Some (length (styles m))).
Definition new_widths (g : list (list Z)) (m : Mem) : Mem * loc :=
  (set_widths (widths m ++ [g]) m, Some (length (widths m))).
Definition new_tabmap (t : gset Z) (m : Mem) : Mem * loc :=
  (set_tabmaps (tabmaps m ++ [t]) m, Some (length (tabmaps m))).
Definition new_list (l : list HistoryLine) (m : Mem) : Mem * loc :=
  (set_lists (lists m ++ [l]) m, Some (length (lists m))).

(** ** NativeScreen *)

Record NativeScreen := mkNativeScreen {
  columns : Z;
  lines : Z;
  buffer : loc;
  attrs : loc;
  cursor : Cursor;
  saved : option Cursor;
  title : string;
  iconName : string;
  autoWrap : bool;
  newlineMode : bool;
  tabStops : loc
}.

Definition set_buffer (v : loc) (s : NativeScreen) : NativeScreen :=
  mkNativeScreen (columns s) (lines s) v (attrs s) (cursor s) (saved s)
    (title s) (iconName s) (autoWrap s) (newlineMode s) (tabStops s).
Definition set_attrs (v : loc) (s : NativeScreen) : NativeScreen :=
  mkNativeScreen (columns s) (lines s) (buffer s) v (cursor s) (saved s)
    (title s) (iconName s) (autoWrap s) (newlineMode s) (tabStops s).
Definition set_cursor (v : Cursor) (s : NativeScreen) : NativeScreen :=
  mkNativeScreen (columns s) (lines s) (buffer s) (attrs s) v (saved s)
    (title s) (iconName s) (autoWrap s) (newlineMode s) (tabStops s).
Definition set_saved (v : option Cursor) (s : NativeScreen) : NativeScreen :=
  mkNativeScreen (columns s) (lines s) (buffer s) (attrs s) (cursor s) v
    (title s) (iconName s) (autoWrap s) (newlineMode s) (tabStops s).
Definition set_title (v : string) (s : NativeScreen) : NativeScreen :=
  mkNativeScreen (columns s) (lines s) (buffer s) (attrs s) (cursor s) (saved s)
    v (iconName s) (autoWrap s) (newlineMode s) (tabStops s).
Definition set_iconName (v : string) (s : NativeScreen) : NativeScreen :=
  mkNativeScreen (columns s) (lines s) (buffer s) (attrs s) (cursor s) (saved s)
    (title s) v (autoWrap s) (newlineMode s) (tabStops s).
Definition set_autoWrap (v : bool) (s : NativeScreen) : NativeScreen :=
  mkNativeScreen (columns s) (lines s) (buffer s) (attrs s) (cursor s) (saved s)
    (title s) (iconName s) v (newlineMode s) (tabStops s).
Definition set_newlineMode (v : bool) (s : NativeScreen) : NativeScreen :=
  mkNativeScreen (columns s) (lines s) (buffer s) (attrs s) (cursor s) (saved s)
    (title s) (iconName s) (autoWrap s) v (tabStops s).
Definition set_tabStops (v : loc) (s : NativeScreen) : NativeScreen :=
  mkNativeScreen (columns s) (lines s) (buffer s) (attrs s) (cursor s) (saved s)
    (title s) (iconName s) (autoWrap s) (newlineMode s) v.

(** The objects a screen's fields point to. *)
Definition buf (m : Mem) (s : NativeScreen) : list (list rune) := load [] (runes m) (buffer s).
Definition att (m : Mem) (s : NativeScreen) : list (list Attributes) := load [] (styles m) (attrs s).
Definition tabs (m : Mem) (s : NativeScreen) : gset Z := load ∅ (tabmaps m) (tabStops s).

(** Writes through [s.buffer], [s.attrs] and [s.tabStops]. *)
Definition put_buf (g : list (list rune)) (m : Mem) (s : NativeScreen) : Mem :=
  set_runes (store (runes m) (buffer s) g) m.
Definition put_att (g : list (list Attributes)) (m : Mem) (s : NativeScreen) : Mem :=
  set_styles (store (styles m) (attrs s) g) m.
Definition put_tabs (t : gset Z) (m : Mem) (s : NativeScreen) : Mem :=
  set_tabmaps (store (tabmaps m) (tabStops s) t) m.

(** [for i := 0; i < columns; i += 8 { t[i] = true }]. *)
Definition default_tabs (columns : Z) : gset Z :=
  list_to_set (filter (fun i => i mod 8 = 0) (seqZ 0 columns)).

(** A fresh grid of [lines] rows of [columns] spaces, as the constructors
    build it: [make] and the loop that writes the spaces. *)
Definition blank_runes (columns lines : Z) : list (list rune) :=
  fill_grid columns lines space (make (make 0 columns) lines).

Definition NewNativeScreen (columns lines : Z) (m : Mem) : Mem * NativeScreen :=
  let '(m, b) := new_runes (blank_runes columns lines) m in
  let '(m, a) := new_styles (make (make zeroAttributes columns) lines) m in
  let '(m, t) := new_tabmap (default_tabs columns) m in
  (m, mkNativeScreen columns lines b a zeroCursor None "" "" true true t).

Definition moveX (x : Z) (s : NativeScreen) : NativeScreen := set_cursor (setX x (cursor s)) s.
Definition moveY (y : Z) (s : NativeScreen) : NativeScreen := set_cursor (setY y (cursor s)) s.

(** A loop over the indices [idx] that stops at the first index where its
    condition fails. *)
Fixpoint for_break {S} (idx : list Z) (cond : Z -> S -> bool) (body : Z -> S -> S) (s : S) : S :=
  match idx with
  | [] => s
  | i :: idx => if cond i s then for_break idx cond body (body i s) else s
  end.

(** [scrollUp]: the rows move up by one, the last row is a fresh row of
    spaces with zero attributes. *)
Definition NativeScreen_scrollUp (m : Mem) (s : NativeScreen) : Mem :=
  let b := copy (buf m s) (drop 1 (buf m s)) in
  let a := copy (att m s) (drop 1 (att m s)) in
  let lastLine := isub (lines s) 1 in
  let b := set_row b lastLine (make 0 (columns s)) in
  let a := set_row a lastLine (make zeroAttributes (columns s)) in
  let b := fill_row (columns s) lastLine space b in
  put_att a (put_buf b m s) s.

(** The body of the loop of [Draw], for one code point. *)
Definition NativeScreen_Draw1 (ch : rune) (st : Mem * NativeScreen) : Mem * NativeScreen :=
  let '(m, s) := st in
  let '(m, s) :=
    if columns s <=? X (cursor s) then
      if autoWrap s then
        let s := moveX 0 s in
        let s := moveY (iadd (Y (cursor s)) 1) s in
        if lines s <=? Y (cursor s)
        then (NativeScreen_scrollUp m s, moveY (isub (lines s) 1) s)
        else (m, s)
      else (m, moveX (isub (columns s) 1) s)
    else (m, s) in
  if (Y (cursor s) <? lines s) && (X (cursor s) <? columns s) then
    (put_buf (set_cell (buf m s) (Y (cursor s)) (X (cursor s)) ch) m s,
     moveX (iadd (X (cursor s)) 1) s)
  else (m, s).

Definition NativeScreen_Draw (text : list rune) (st : Mem * NativeScreen) : Mem * NativeScreen :=
  fold_left (fun st ch => NativeScreen_Draw1 ch st) text st.

Definition NativeScreen_Backspace (s : NativeScreen) : NativeScreen :=
  if 0 <? X (cursor s) then moveX (isub (X (cursor s)) 1) s else s.

Definition NativeScreen_Tab (m : Mem) (s : NativeScreen) : NativeScreen :=
  let x0 := iadd (X (cursor s)) 1 in
  match find (fun x => bool_decide (x ∈ tabs m s)) (seqZ x0 (columns s - x0)) with
  | Some x => moveX x s
  | None => moveX (isub (columns s) 1) s
  end.

Definition NativeScreen_Linefeed (st : Mem * NativeScreen) : Mem * NativeScreen :=
  let '(m, s) := st in
  let s := moveY (iadd (Y (cursor s)) 1) s in
  let '(m, s) :=
    if lines s <=? Y (cursor s)
    then (NativeScreen_scrollUp m s, moveY (isub (lines s) 1) s)
    else (m, s) in
  if newlineMode s then (m, moveX 0 s) else (m, s).

Definition NativeScreen_CarriageReturn (s : NativeScreen) : NativeScreen := moveX 0 s.

Definition NativeScreen_Index (st : Mem * NativeScreen) : Mem * NativeScreen :=
  let '(m, s) := st in
  let s := moveY (iadd (Y (cursor s)) 1) s in
  if lines s <=? Y (cursor s)
  then (NativeScreen_scrollUp m s, moveY (isub (lines s) 1) s)
  else (m, s).

(** The clamp of the cursor moves: [if v < 0 { v = 0 } else if v >= n { v = n - 1 }]. *)
Definition clamp (n v : Z) : Z :=
  if v <? 0 then 0 else if n <=? v then isub n 1 else v.

Definition NativeScreen_CursorPosition (line column : Z) (s : NativeScreen) : NativeScreen :=
  let s := moveY (isub line 1) s in
  let s := moveX (isub column 1) s in
  let s := moveY (clamp (lines s) (Y (cursor s))) s in
  moveX (clamp (columns s) (X (cursor s))) s.

Definition NativeScreen_CursorToColumn (column : Z) (s : NativeScreen) : NativeScreen :=
  moveX (clamp (columns s) (isub column 1)) s.

Definition NativeScreen_CursorToLine (line : Z) (s : NativeScreen) : NativeScreen :=
  moveY (clamp (lines s) (isub line 1)) s.

Definition NativeScreen_CursorUp (count : Z) (s : NativeScreen) : NativeScreen :=
  let y := isub (Y (cursor s)) count in
  moveY (if y <? 0 then 0 else y) s.

Definition NativeScreen_CursorDown (count : Z) (s : NativeScreen) : NativeScreen :=
  let y := iadd (Y (cursor s)) count in
  moveY (if lines s <=? y then isub (lines s) 1 else y) s.

Definition NativeScreen_CursorForward (count : Z) (s : NativeScreen) : NativeScreen :=
  let x := iadd (X (cursor s)) count in
  moveX (if columns s <=? x then isub (columns s) 1 else x) s.

Definition NativeScreen_CursorBack (count : Z) (s : NativeScreen) : NativeScreen :=
  let x := isub (X (cursor s)) count in
  moveX (if x <? 0 then 0 else x) s.

Definition color256ToString (n : Z) : string := "color" +:+ pretty n.

(** One parameter of [SelectGraphicRendition] other than 38 and 48. *)
Definition sgr1 (p : Z) (a : Attributes) : Attributes :=
  let fg v := mkAttributes v (Bg a) (Bold a) (Italics a) (Underscore a) (Strikethrough a) (Reverse a) (Blink a) in
  let bg v := mkAttributes (Fg a) v (Bold a) (Italics a) (Underscore a) (Strikethrough a) (Reverse a) (Blink a) in
  if p =? 0 then DefaultAttributes
  else if p =? 1 then mkAttributes (Fg a) (Bg a) true (Italics a) (Underscore a) (Strikethrough a) (Reverse a) (Blink a)
  else if p =? 3 then mkAttributes (Fg a) (Bg a) (Bold a) true (Underscore a) (Strikethrough a) (Reverse a) (Blink a)
  else if p =? 4 then mkAttributes (Fg a) (Bg a) (Bold a) (Italics a) true (Strikethrough a) (Reverse a) (Blink a)
  else if p =? 5 then mkAttributes (Fg a) (Bg a) (Bold a) (Italics a) (Underscore a) (Strikethrough a) (Reverse a) true
  else if p =? 7 then mkAttributes (Fg a) (Bg a) (Bold a) (Italics a) (Underscore a) (Strikethrough a) true (Blink a)
  else if p =? 9 then mkAttributes (Fg a) (Bg a) (Bold a) (Italics a) (Underscore a) true (Reverse a) (Blink a)
  else if p =? 22 then mkAttributes (Fg a) (Bg a) false (Italics a) (Underscore a) (Strikethrough a) (Reverse a) (Blink a)
  else if p =? 23 then mkAttributes (Fg a) (Bg a) (Bold a) false (Underscore a) (Strikethrough a) (Reverse a) (Blink a)
  else if p =? 24 then mkAttributes (Fg a) (Bg a) (Bold a) (Italics a) false (Strikethrough a) (Reverse a) (Blink a)
  else if p =? 25 then mkAttributes (Fg a) (Bg a) (Bold a) (Italics a) (Underscore a) (Strikethrough a) (Reverse a) false
  else if p =? 27 then mkAttributes (Fg a) (Bg a) (Bold a) (Italics a) (Underscore a) (Strikethrough a) false (Blink a)
  else if p =? 29 then mkAttributes (Fg a) (Bg a) (Bold a) (Italics a) (Underscore a) false (Reverse a) (Blink a)
  else if p =? 30 then fg "black"
  else if p =? 31 then fg "red"
  else if p =? 32 then fg "green"
  else if p =? 33 then fg "brown"
  else if p =? 34 then fg "blue"
  else if p =? 35 then fg "magenta"
  else if p =? 36 then fg "cyan"
  else if p =? 37 then fg "white"
  else if p =? 39 then fg "default"
  else if p =? 40 then bg "black"
  else if p =? 41 then bg "red"
  else if p =? 42 then bg "green"
  else if p =? 43 then bg "brown"
  else if p =? 44 then bg "blue"
  else if p =? 45 then bg "magenta"
  else if p =? 46 then bg "cyan"
  else if p =? 47 then bg "white"
  else if p =? 49 then bg "default"
  else a.

(** The loop of [SelectGraphicRendition] over [params[i:]]; [38] and [48]
    followed by [5] and a colour take the two next parameters with them. *)
Fixpoint sgr_loop (params : list Z) (a : Attributes) : Attributes :=
  match params with
  | [] => a
  | p :: rest =>
    if (p =? 38) || (p =? 48) then
      match rest with
      | five :: color :: rest' =>
        if five =? 5 then
          sgr_loop rest'
            (if p =? 38
             then mkAttributes (color256ToString color) (Bg a) (Bold a) (Italics a)
                    (Underscore a) (Strikethrough a) (Reverse a) (Blink a)
             else mkAttributes (Fg a) (color256ToString color) (Bold a) (Italics a)
                    (Underscore a) (Strikethrough a) (Reverse a) (Blink a))
        else sgr_loop rest a
      | _ => sgr_loop rest a
      end
    else sgr_loop rest (sgr1 p a)
  end.

Definition NativeScreen_SelectGraphicRendition (params : list Z) (s : NativeScreen) : NativeScreen :=
  match params with
  | [] => set_cursor (setAttrs DefaultAttributes (cursor s)) s
  | [0] => set_cursor (setAttrs DefaultAttributes (cursor s)) s
  | _ => set_cursor (setAttrs (sgr_loop params (Attrs (cursor s))) (cursor s)) s
  end.

Definition NativeScreen_SetTabStop (m : Mem) (s : NativeScreen) : Mem :=
  put_tabs ({[X (cursor s)]} ∪ tabs m s) m s.

Definition NativeScreen_ClearTabStop (how : Z) (st : Mem * NativeScreen) : Mem * NativeScreen :=
  let '(m, s) := st in
  if how =? 0 then (put_tabs (tabs m s ∖ {[X (cursor s)]}) m s, s)
  else if how =? 3 then let '(m, t) := new_tabmap ∅ m in (m, set_tabStops t s)
  else (m, s).

Definition NativeScreen_SaveCursor (s : NativeScreen) : NativeScreen :=
  set_saved (Some (cursor s)) s.

Definition NativeScreen_RestoreCursor (s : NativeScreen) : NativeScreen :=
  match saved s with
  | Some c => set_cursor c s
  | None => s
  end.

Definition NativeScreen_EraseCharacters (count : Z) (m : Mem) (s : NativeScreen) : Mem :=
  let b :=
    for_break (seqZ 0 count)
      (fun i _ => iadd (X (cursor s)) i <? columns s)
      (fun i b => set_cell b (Y (cursor s)) (iadd (X (cursor s)) i) space)
      (buf m s) in
  put_buf b m s.

Definition NativeScreen_EraseInLine (how : Z) (m : Mem) (s : NativeScreen) : Mem :=
  let y := Y (cursor s) in
  if how =? 0 then
    put_buf (for_range (X (cursor s)) (columns s) (fun x b => set_cell b y x space) (buf m s)) m s
  else if how =? 1 then
    put_buf (for_break (seqZ 0 (columns s)) (fun x _ => x <=? X (cursor s))
               (fun x b => set_cell b y x space) (buf m s)) m s
  else if how =? 2 then
    put_buf (fill_row (columns s) y space (buf m s)) m s
  else m.

Definition NativeScreen_EraseInDisplay (how : Z) (m : Mem) (s : NativeScreen) : Mem :=
  if how =? 0 then
    let m := NativeScreen_EraseInLine 0 m s in
    put_buf (for_range (iadd (Y (cursor s)) 1) (lines s)
               (fun y b => fill_row (columns s) y space b) (buf m s)) m s
  else if how =? 1 then
    let m := NativeScreen_EraseInLine 1 m s in
    put_buf (for_range 0 (Y (cursor s))
               (fun y b => fill_row (columns s) y space b) (buf m s)) m s
  else if (how =? 2) || (how =? 3) then
    put_buf (fill_grid (columns s) (lines s) space (buf m s)) m s
  else m.

Definition NativeScreen_SetMode (modes : list Z) (private : bool) (s : NativeScreen) : NativeScreen :=
  fold_left (fun s mode =>
    if private then (if mode =? 7 then set_autoWrap true s else s)
    else (if mode =? 20 then set_newlineMode true s else s)) modes s.

Definition NativeScreen_ResetMode (modes : list Z) (private : bool) (s : NativeScreen) : NativeScreen :=
  fold_left (fun s mode =>
    if private then (if mode =? 7 then set_autoWrap false s else s)
    else (if mode =? 20 then set_newlineMode false s else s)) modes s.

Definition NativeScreen_CursorUp1 (count : Z) (s : NativeScreen) : NativeScreen :=
  let y := isub (Y (cursor s)) count in
  moveX 0 (moveY (if y <? 0 then 0 else y) s).

Definition NativeScreen_CursorDown1 (count : Z) (s : NativeScreen) : NativeScreen :=
  let y := iadd (Y (cursor s)) count in
  moveX 0 (moveY (if lines s <=? y then isub (lines s) 1 else y) s).

(** [Reset]: spaces and zero attributes in every cell, the zero cursor,
    nothing saved, both modes on, a fresh map with the default tab stops. *)
Definition NativeScreen_Reset (st : Mem * NativeScreen) : Mem * NativeScreen :=
  let '(m, s) := st in
  let m := put_buf (fill_grid (columns s) (lines s) space (buf m s)) m s in
  let m := put_att (fill_grid (columns s) (lines s) zeroAttributes (att m s)) m s in
  let s := set_cursor zeroCursor s in
  let s := set_saved None s in
  let s := set_autoWrap true s in
  let s := set_newlineMode true s in
  let '(m, t) := new_tabmap (default_tabs (columns s)) m in
  (m, set_tabStops t s).

(** [scrollDown]: the rows move down by one, the first row is a fresh row
    of spaces with zero attributes. *)
Definition NativeScreen_scrollDown (m : Mem) (s : NativeScreen) : Mem :=
  let b := copy_to (buf m s) 1 (slice (buf m s) 0 (isub (lines s) 1)) in
  let a := copy_to (att m s) 1 (slice (att m s) 0 (isub (lines s) 1)) in
  let b := set_row b 0 (make 0 (columns s)) in
  let a := set_row a 0 (make zeroAttributes (columns s)) in
  let b := fill_row (columns s) 0 space b in
  put_att a (put_buf b m s) s.

Definition NativeScreen_ReverseIndex (st : Mem * NativeScreen) : Mem * NativeScreen :=
  let '(m, s) := st in
  let s := moveY (isub (Y (cursor s)) 1) s in
  if Y (cursor s) <? 0
  then (NativeScreen_scrollDown m s, moveY 0 s)
  else (m, s).

Definition NativeScreen_InsertLines (count : Z) (m : Mem) (s : NativeScreen) : Mem :=
  let y := Y (cursor s) in
  for_break (seqZ 0 count) (fun _ _ => y <? lines s)
    (fun _ m =>
       let b := copy_to (buf m s) (iadd y 1) (slice (buf m s) y (isub (lines s) 1)) in
       let a := copy_to (att m s) (iadd y 1) (slice (att m s) y (isub (lines s) 1)) in
       let b := set_row b y (make 0 (columns s)) in
       let a := set_row a y (make zeroAttributes (columns s)) in
       let b := fill_row (columns s) y space b in
       put_att a (put_buf b m s) s) m.

Definition NativeScreen_DeleteLines (count : Z) (m : Mem) (s : NativeScreen) : Mem :=
  let y := Y (cursor s) in
  for_break (seqZ 0 count) (fun _ _ => y <? lines s)
    (fun _ m =>
       let b :=
         if y <? isub (lines s) 1
         then copy_to (buf m s) y (drop (Z.to_nat (iadd y 1)) (buf m s))
         else buf m s in
       let a :=
         if y <? isub (lines s) 1
         then copy_to (att m s) y (drop (Z.to_nat (iadd y 1)) (att m s))
         else att m s in
       let lastLine := isub (lines s) 1 in
       let b := set_row b lastLine (make 0 (columns s)) in
       let a := set_row a lastLine (make zeroAttributes (columns s)) in
       let b := fill_row (columns s) lastLine space b in
       put_att a (put_buf b m s) s) m.

(** [InsertCharacters] and [DeleteCharacters] work on [line], the row of
    the cursor, in place. *)
Definition NativeScreen_InsertCharacters (count : Z) (m : Mem) (s : NativeScreen) : Mem :=
  let x := X (cursor s) in
  let line :=
    for_break (seqZ 0 count) (fun _ _ => x <? columns s)
      (fun _ line =>
         let line := copy_to line (iadd x 1) (slice line x (isub (columns s) 1)) in
         set_elem line x space)
      (row (buf m s) (Y (cursor s))) in
  put_buf (set_row (buf m s) (Y (cursor s)) line) m s.

Definition NativeScreen_DeleteCharacters (count : Z) (m : Mem) (s : NativeScreen) : Mem :=
  let x := X (cursor s) in
  let line :=
    for_break (seqZ 0 count) (fun _ _ => x <? columns s)
      (fun _ line =>
         let line :=
           if x <? isub (columns s) 1
           then copy_to line x (drop (Z.to_nat (iadd x 1)) line)
           else line in
         set_elem line (isub (columns s) 1) space)
      (row (buf m s) (Y (cursor s))) in
  put_buf (set_row (buf m s) (Y (cursor s)) line) m s.

Definition NativeScreen_SetTitle (title : string) (s : NativeScreen) : NativeScreen :=
  set_title title s.

Definition NativeScreen_SetIconName (name : string) (s : NativeScreen) : NativeScreen :=
  set_iconName name s.

(** [AlignmentDisplay]: an 'E' in every cell. *)
Definition NativeScreen_AlignmentDisplay (m : Mem) (s : NativeScreen) : Mem :=
  put_buf (fill_grid (columns s) (lines s) 69 (buf m s)) m s.

Definition NativeScreen_GetCursor (s : NativeScreen) : Z * Z := (X (cursor s), Y (cursor s)).

(** ** HistoryScreen *)

Record HistoryScreen := mkHistoryScreen {
  native :> NativeScreen;
  history : loc;
  maxHistory : Z;
  historyPos : Z;
  savedBuffer : loc;
  savedAttrs : loc;
  savedCursor : Cursor;
  viewingHistory : bool
}.

Definition set_native (v : NativeScreen) (h : HistoryScreen) : HistoryScreen :=
  mkHistoryScreen v (history h) (maxHistory h) (historyPos h)
    (savedBuffer h) (savedAttrs h) (savedCursor h) (viewingHistory h).
Definition set_history (v : loc) (h : HistoryScreen) : HistoryScreen :=
  mkHistoryScreen h v (maxHistory h) (historyPos h)
    (savedBuffer h) (savedAttrs h) (savedCursor h) (viewingHistory h).
Definition set_historyPos (v : Z) (h : HistoryScreen) : HistoryScreen :=
  mkHistoryScreen h (history h) (maxHistory h) v
    (savedBuffer h) (savedAttrs h) (savedCursor h) (viewingHistory h).
Definition set_savedBuffer (v : loc) (h : HistoryScreen) : HistoryScreen :=
  mkHistoryScreen h (history h) (maxHistory h) (historyPos h)
    v (savedAttrs h) (savedCursor h) (viewingHistory h).
Definition set_savedAttrs (v : loc) (h : HistoryScreen) : HistoryScreen :=
  mkHistoryScreen h (history h) (maxHistory h) (historyPos h)
    (savedBuffer h) v (savedCursor h) (viewingHistory h).
Definition set_savedCursor (v : Cursor) (h : HistoryScreen) : HistoryScreen :=
  mkHistoryScreen h (history h) (maxHistory h) (historyPos h)
    (savedBuffer h) (savedAttrs h) v (viewingHistory h).
Definition set_viewingHistory (v : bool) (h : HistoryScreen) : HistoryScreen :=
  mkHistoryScreen h (history h) (maxHistory h) (historyPos h)
    (savedBuffer h) (savedAttrs h) (savedCursor h) v.

(** The list [h.history] points to, and a write through it. *)
Definition hist_lines (m : Mem) (h : HistoryScreen) : list HistoryLine := load [] (lists m) (history h).
Definition put_hist (l : list HistoryLine) (m : Mem) (h : HistoryScreen) : Mem :=
  set_lists (store (lists m) (history h) l) m.

(** [h.history.Len()]. *)
Definition history_Len (m : Mem) (h : HistoryScreen) : Z := Z.of_nat (length (hist_lines m h)).

Definition NewHistoryScreen (columns lines maxHistory : Z) (m : Mem) : Mem * HistoryScreen :=
  let '(m, s) := NewNativeScreen columns lines m in
  let '(m, l) := new_list [] m in
  (m, mkHistoryScreen s l maxHistory 0 nil nil zeroCursor false).

Definition HistoryScreen_scrollUpInternal (m : Mem) (h : HistoryScreen) : Mem :=
  let b := copy (buf m h) (drop 1 (buf m h)) in
  let a := copy (att m h) (drop 1 (att m h)) in
  let lastLine := isub (lines h) 1 in
  let b := set_row b lastLine (make 0 (columns h)) in
  let a := set_row a lastLine (make zeroAttributes (columns h)) in
  let b := fill_row (columns h) lastLine space b in
  put_att a (put_buf b m h) h.

Definition HistoryScreen_addToHistory (lineNum : Z) (m : Mem) (h : HistoryScreen) : Mem :=
  if (0 <=? lineNum) && (lineNum <? lines h) then
    let line :=
      mkHistoryLine (copy (make 0 (columns h)) (row (buf m h) lineNum))
                    (copy (make zeroAttributes (columns h)) (row (att m h) lineNum)) in
    let m := put_hist (hist_lines m h ++ [line]) m h in
    if maxHistory h <? history_Len m h
    then put_hist (drop 1 (hist_lines m h)) m h
    else m
  else m.

Definition HistoryScreen_Linefeed (st : Mem * HistoryScreen) : Mem * HistoryScreen :=
  let '(m, h) := st in
  let '(m, h) :=
    if Y (cursor h) =? isub (lines h) 1 then
      let m := HistoryScreen_addToHistory 0 m h in
      (HistoryScreen_scrollUpInternal m h, h)
    else (m, set_native (moveY (iadd (Y (cursor h)) 1) h) h) in
  if newlineMode h then (m, set_native (moveX 0 h) h) else (m, h).

Definition HistoryScreen_Index (st : Mem * HistoryScreen) : Mem * HistoryScreen :=
  let '(m, h) := st in
  if Y (cursor h) =? isub (lines h) 1 then
    let m := HistoryScreen_addToHistory 0 m h in
    (HistoryScreen_scrollUpInternal m h, h)
  else (m, set_native (moveY (iadd (Y (cursor h)) 1) h) h).

(** [saveCurrentScreen]: two fresh grids, each row a fresh row of [columns]
    cells into which the live row is copied. *)
Definition HistoryScreen_saveCurrentScreen (st : Mem * HistoryScreen) : Mem * HistoryScreen :=
  let '(m, h) := st in
  let '(m, sb) := new_runes (make [] (lines h)) m in
  let '(m, sa) := new_styles (make [] (lines h)) m in
  let h := set_savedAttrs sa (set_savedBuffer sb h) in
  let m :=
    for_range 0 (lines h) (fun i m =>
      let r := copy (make 0 (columns h)) (row (buf m h) i) in
      let a := copy (make zeroAttributes (columns h)) (row (att m h) i) in
      let m := set_runes (store (runes m) (savedBuffer h) (set_row (load [] (runes m) (savedBuffer h)) i r)) m in
      set_styles (store (styles m) (savedAttrs h) (set_row (load [] (styles m) (savedAttrs h)) i a)) m) m in
  (m, set_savedCursor (cursor h) h).

Definition HistoryScreen_restoreCurrentScreen (h : HistoryScreen) : HistoryScreen :=
  match savedBuffer h with
  | Some _ =>
    let h := set_native (set_buffer (savedBuffer h) h) h in
    let h := set_native (set_attrs (savedAttrs h) h) h in
    let h := set_native (set_cursor (savedCursor h) h) h in
    let h := set_savedBuffer nil h in
    let h := set_savedAttrs nil h in
    set_native (set_cursor (setHidden false (cursor h)) h) h
  | None => h
  end.

(** The loop of [renderHistoryView] that copies history lines into the rows
    from [lineIdx] on, while there are both; it returns the next row. *)
Fixpoint fill_from_history (hs : list HistoryLine) (h : HistoryScreen) (lineIdx : Z) (m : Mem) : Z * Mem :=
  match hs with
  | [] => (lineIdx, m)
  | histLine :: hs =>
    if lineIdx <? lines h then
      let m := put_buf (set_row (buf m h) lineIdx (copy (row (buf m h) lineIdx) (Chars histLine))) m h in
      let m := put_att (set_row (att m h) lineIdx (copy (row (att m h) lineIdx) (LineAttrs histLine))) m h in
      fill_from_history hs h (iadd lineIdx 1) m
    else (lineIdx, m)
  end.

(** The loop of [renderHistoryView] that copies the rows [idx] of the saved
    screen into the rows from [lineIdx] on. *)
Fixpoint fill_from_saved (idx : list Z) (h : HistoryScreen) (lineIdx : Z) (m : Mem) : Z * Mem :=
  match idx with
  | [] => (lineIdx, m)
  | i :: idx =>
    if lineIdx <? lines h then
      let m := put_buf (set_row (buf m h) lineIdx
                 (copy (row (buf m h) lineIdx) (row (load [] (runes m) (savedBuffer h)) i))) m h in
      let m := put_att (set_row (att m h) lineIdx
                 (copy (row (att m h) lineIdx) (row (load [] (styles m) (savedAttrs h)) i))) m h in
      fill_from_saved idx h (iadd lineIdx 1) m
    else (lineIdx, m)
  end.

Definition HistoryScreen_renderHistoryView (st : Mem * HistoryScreen) : Mem * HistoryScreen :=
  let '(m, h) := st in
  let m := put_buf (fill_grid (columns h) (lines h) space (buf m h)) m h in
  let m := put_att (fill_grid (columns h) (lines h) zeroAttributes (att m h)) m h in
  let totalLines := iadd (history_Len m h) (lines h) in
  let startLine := isub (isub totalLines (historyPos h)) (lines h) in
  let startLine := if startLine <? 0 then 0 else startLine in
  let '(lineIdx, m) := fill_from_history (drop (Z.to_nat startLine) (hist_lines m h)) h 0 m in
  let m :=
    if (lineIdx <? lines h) && bool_decide (savedBuffer h <> nil) then
      let savedStart := if historyPos h <=? lines h then isub (lines h) (historyPos h) else 0 in
      snd (fill_from_saved (seqZ savedStart (lines h - savedStart)) h lineIdx m)
    else m in
  (m, set_native (set_cursor (setHidden true (cursor h)) h) h).

Definition HistoryScreen_ScrollUp (n : Z) (st : Mem * HistoryScreen) : Mem * HistoryScreen :=
  let '(m, h) := st in
  let '(m, h) :=
    if viewingHistory h then (m, h)
    else let '(m, h) := HistoryScreen_saveCurrentScreen (m, h) in (m, set_viewingHistory true h) in
  let maxScroll := isub (history_Len m h) (historyPos h) in
  let n := if maxScroll <? n then maxScroll else n in
  if n <=? 0 then (m, h)
  else HistoryScreen_renderHistoryView (m, set_historyPos (iadd (historyPos h) n) h).

Definition HistoryScreen_ScrollDown (n : Z) (st : Mem * HistoryScreen) : Mem * HistoryScreen :=
  let '(m, h) := st in
  if viewingHistory h then
    let h := set_historyPos (isub (historyPos h) n) h in
    if historyPos h <=? 0 then
      let h := set_historyPos 0 h in
      let h := HistoryScreen_restoreCurrentScreen h in
      (m, set_viewingHistory false h)
    else HistoryScreen_renderHistoryView (m, h)
  else (m, h).

Definition HistoryScreen_ScrollToBottom (h : HistoryScreen) : HistoryScreen :=
  if viewingHistory h then
    let h := set_historyPos 0 h in
    let h := HistoryScreen_restoreCurrentScreen h in
    set_viewingHistory false h
  else h.

(** The body of the loop of [HistoryScreen.Draw], for one code point. *)
Definition HistoryScreen_Draw1 (ch : rune) (st : Mem * HistoryScreen) : Mem * HistoryScreen :=
  let '(m, h) := st in
  let '(m, h) :=
    if columns h <=? X (cursor h) then
      if autoWrap h then
        let h := set_native (moveX 0 h) h in
        if isub (lines h) 1 <=? Y (cursor h) then
          let m := HistoryScreen_addToHistory 0 m h in
          (HistoryScreen_scrollUpInternal m h, h)
        else (m, set_native (moveY (iadd (Y (cursor h)) 1) h) h)
      else (m, set_native (moveX (isub (columns h) 1) h) h)
    else (m, h) in
  if (Y (cursor h) <? lines h) && (X (cursor h) <? columns h) then
    let m := put_buf (set_cell (buf m h) (Y (cursor h)) (X (cursor h)) ch) m h in
    let m := put_att (set_cell (att m h) (Y (cursor h)) (X (cursor h)) (Attrs (cursor h))) m h in
    (m, set_native (moveX (iadd (X (cursor h)) 1) h) h)
  else (m, h).

Definition HistoryScreen_Draw (text : list rune) (st : Mem * HistoryScreen) : Mem * HistoryScreen :=
  let '(m, h) := st in
  let h := if viewingHistory h then HistoryScreen_ScrollToBottom h else h in
  fold_left (fun st ch => HistoryScreen_Draw1 ch st) text (m, h).

Definition HistoryScreen_EraseInDisplay (how : Z) (st : Mem * HistoryScreen) : Mem * HistoryScreen :=
  let '(m, h) := st in
  let h := if viewingHistory h then HistoryScreen_ScrollToBottom h else h in
  let m := NativeScreen_EraseInDisplay how m h in
  if (how =? 2) || (how =? 3)
  then (put_hist [] m h, set_historyPos 0 h)
  else (m, h).

Definition HistoryScreen_Reset (st : Mem * HistoryScreen) : Mem * HistoryScreen :=
  let '(m, h) := st in
  let '(m, s) := NativeScreen_Reset (m, native h) in
  let h := set_native s h in
  let m := put_hist [] m h in
  let h := set_historyPos 0 h in
  let h := set_viewingHistory false h in
  let h := set_savedBuffer nil h in
  (m, set_savedAttrs nil h).

Definition HistoryScreen_GetHistorySize (m : Mem) (h : HistoryScreen) : Z :=
  match history h with
  | None => 0
  | Some _ => history_Len m h
  end.

Definition HistoryScreen_IsViewingHistory (h : HistoryScreen) : bool := viewingHistory h.

Definition HistoryScreen_GetCursor (h : HistoryScreen) : Z * Z := (X (cursor h), Y (cursor h)).

(** ** AlternateScreen *)

Record AlternateScreen := mkAlternateScreen {
  hist :> HistoryScreen;
  mainBuffer : loc;
  mainAttrs : loc;
  mainCursor : Cursor;
  mainTabStops : loc;
  mainHistory : loc;
  altBuffer : loc;
  altAttrs : loc;
  altCursor : Cursor;
  altTabStops : loc;
  usingAlternate : bool
}.

Definition set_hist (v : HistoryScreen) (a : AlternateScreen) : AlternateScreen :=
  mkAlternateScreen v (mainBuffer a) (mainAttrs a) (mainCursor a) (mainTabStops a) (mainHistory a)
    (altBuffer a) (altAttrs a) (altCursor a) (altTabStops a) (usingAlternate a).
Definition set_mainCursor (v : Cursor) (a : AlternateScreen) : AlternateScreen :=
  mkAlternateScreen a (mainBuffer a) (mainAttrs a) v (mainTabStops a) (mainHistory a)
    (altBuffer a) (altAttrs a) (altCursor a) (altTabStops a) (usingAlternate a).
Definition set_altCursor (v : Cursor) (a : AlternateScreen) : AlternateScreen :=
  mkAlternateScreen a (mainBuffer a) (mainAttrs a) (mainCursor a) (mainTabStops a) (mainHistory a)
    (altBuffer a) (altAttrs a) v (altTabStops a) (usingAlternate a).

Definition set_altTabStops (v : loc) (a : AlternateScreen) : AlternateScreen :=
  mkAlternateScreen a (mainBuffer a) (mainAttrs a) (mainCursor a) (mainTabStops a) (mainHistory a)
    (altBuffer a) (altAttrs a) (altCursor a) v (usingAlternate a).

(** A change of the embedded NativeScreen, seen from the outer layers. *)
Definition on_native (f : NativeScreen -> NativeScreen) (a : AlternateScreen) : AlternateScreen :=
  set_hist (set_native (f a) a) a.

Definition NewAlternateScreen (columns lines maxHistory : Z) (m : Mem) : Mem * AlternateScreen :=
  let '(m, h) := NewHistoryScreen columns lines maxHistory m in
  let '(m, b) := new_runes (blank_runes columns lines) m in
  let '(m, s) := new_styles (make (make zeroAttributes columns) lines) m in
  let '(m, t) := new_tabmap (default_tabs columns) m in
  (m, mkAlternateScreen h nil nil zeroCursor nil nil b s zeroCursor t false).

Definition AlternateScreen_switchToAlternate (st : Mem * AlternateScreen) : Mem * AlternateScreen :=
  let '(m, a) := st in
  (* Save main screen state *)
  let a := mkAlternateScreen a (buffer a) (attrs a) (cursor a) (tabStops a) (history a)
             (altBuffer a) (altAttrs a) (altCursor a) (altTabStops a) (usingAlternate a) in
  (* Clear alternate buffer before switching *)
  let m := set_runes (store (runes m) (altBuffer a)
             (fill_grid (columns a) (lines a) space (load [] (runes m) (altBuffer a)))) m in
  let m := set_styles (store (styles m) (altAttrs a)
             (fill_grid (columns a) (lines a) DefaultAttributes (load [] (styles m) (altAttrs a)))) m in
  (* Switch to alternate *)
  let a := on_native (set_buffer (altBuffer a)) a in
  let a := on_native (set_attrs (altAttrs a)) a in
  let a := on_native (set_cursor (mkCursor 0 0 DefaultAttributes false)) a in
  let a := on_native (set_tabStops (altTabStops a)) a in
  let '(m, l) := new_list [] m in
  let a := set_hist (set_history l a) a in
  let a := mkAlternateScreen a (mainBuffer a) (mainAttrs a) (mainCursor a) (mainTabStops a)
             (mainHistory a) (altBuffer a) (altAttrs a) (altCursor a) (altTabStops a) true in
  if viewingHistory a
  then (m, set_hist (set_historyPos 0 (set_viewingHistory false a)) a)
  else (m, a).

Definition AlternateScreen_switchToMain (a : AlternateScreen) : AlternateScreen :=
  if usingAlternate a then
    (* Save alternate state *)
    let a := mkAlternateScreen a (mainBuffer a) (mainAttrs a) (mainCursor a) (mainTabStops a)
               (mainHistory a) (buffer a) (attrs a) (cursor a) (tabStops a) (usingAlternate a) in
    (* Restore main screen *)
    let a := on_native (set_buffer (mainBuffer a)) a in
    let a := on_native (set_attrs (mainAttrs a)) a in
    let a := on_native (set_cursor (mainCursor a)) a in
    let a := on_native (set_tabStops (mainTabStops a)) a in
    let a := set_hist (set_history (mainHistory a) a) a in
    mkAlternateScreen a (mainBuffer a) (mainAttrs a) (mainCursor a) (mainTabStops a)
      (mainHistory a) (altBuffer a) (altAttrs a) (altCursor a) (altTabStops a) false
  else a.

Definition is_alt_mode (mode : Z) : bool := (mode =? 1049) || (mode =? 1047) || (mode =? 47).

Definition AlternateScreen_SetMode (modes : list Z) (private : bool)
    (st : Mem * AlternateScreen) : Mem * AlternateScreen :=
  let '(m, a) :=
    if private then
      fold_left (fun st mode =>
        let '(m, a) := st in
        if is_alt_mode mode then
          if usingAlternate a then (m, a) else AlternateScreen_switchToAlternate (m, a)
        else if mode =? 1048 then
          if usingAlternate a then (m, set_altCursor (cursor a) a) else (m, set_mainCursor (cursor a) a)
        else (m, a)) modes st
    else st in
  (m, on_native (NativeScreen_SetMode modes private) a).

Definition AlternateScreen_ResetMode (modes : list Z) (private : bool)
    (st : Mem * AlternateScreen) : Mem * AlternateScreen :=
  let '(m, a) := st in
  let a :=
    if private then
      fold_left (fun a mode =>
        if is_alt_mode mode then
          if usingAlternate a then AlternateScreen_switchToMain a else a
        else if mode =? 1048 then
          if usingAlternate a then on_native (set_cursor (altCursor a)) a
          else on_native (set_cursor (mainCursor a)) a
        else a) modes a
    else a in
  (m, on_native (NativeScreen_ResetMode modes private) a).

Definition AlternateScreen_scrollUpNoHistory (m : Mem) (a : AlternateScreen) : Mem :=
  let b := copy (buf m a) (drop 1 (buf m a)) in
  let s := copy (att m a) (drop 1 (att m a)) in
  let lastLine := isub (lines a) 1 in
  let b := set_row b lastLine (make 0 (columns a)) in
  let s := set_row s lastLine (make zeroAttributes (columns a)) in
  let b := fill_row (columns a) lastLine space b in
  put_att s (put_buf b m a) a.

(** A method of the embedded HistoryScreen, run on the embedded value. *)
Definition on_hist (f : Mem * HistoryScreen -> Mem * HistoryScreen)
    (st : Mem * AlternateScreen) : Mem * AlternateScreen :=
  let '(m, a) := st in
  let '(m, h) := f (m, hist a) in
  (m, set_hist h a).

Definition AlternateScreen_Linefeed (st : Mem * AlternateScreen) : Mem * AlternateScreen :=
  let '(m, a) := st in
  if usingAlternate a then
    let '(m, a) :=
      if Y (cursor a) =? isub (lines a) 1
      then (AlternateScreen_scrollUpNoHistory m a, a)
      else (m, on_native (moveY (iadd (Y (cursor a)) 1)) a) in
    if newlineMode a then (m, on_native (moveX 0) a) else (m, a)
  else on_hist HistoryScreen_Linefeed (m, a).

Definition AlternateScreen_Index (st : Mem * AlternateScreen) : Mem * AlternateScreen :=
  let '(m, a) := st in
  if usingAlternate a then
    if Y (cursor a) =? isub (lines a) 1
    then (AlternateScreen_scrollUpNoHistory m a, a)
    else (m, on_native (moveY (iadd (Y (cursor a)) 1)) a)
  else on_hist HistoryScreen_Index (m, a).

(** The body of the loop of [drawTextDirect], for one code point. *)
Definition AlternateScreen_drawTextDirect1 (ch : rune) (st : Mem * AlternateScreen) : Mem * AlternateScreen :=
  let '(m, a) := st in
  let '(m, a) :=
    if columns a <=? X (cursor a) then
      if autoWrap a then
        let a := on_native (moveX 0) a in
        let a := on_native (moveY (iadd (Y (cursor a)) 1)) a in
        if lines a <=? Y (cursor a)
        then (AlternateScreen_scrollUpNoHistory m a, on_native (moveY (isub (lines a) 1)) a)
        else (m, a)
      else (m, on_native (moveX (isub (columns a) 1)) a)
    else (m, a) in
  if (Y (cursor a) <? lines a) && (X (cursor a) <? columns a) then
    let m := put_buf (set_cell (buf m a) (Y (cursor a)) (X (cursor a)) ch) m a in
    let m := put_att (set_cell (att m a) (Y (cursor a)) (X (cursor a)) (Attrs (cursor a))) m a in
    (m, on_native (moveX (iadd (X (cursor a)) 1)) a)
  else (m, a).

Definition AlternateScreen_drawTextDirect (text : list rune) (st : Mem * AlternateScreen) : Mem * AlternateScreen :=
  fold_left (fun st ch => AlternateScreen_drawTextDirect1 ch st) text st.

Definition AlternateScreen_Draw (text : list rune) (st : Mem * AlternateScreen) : Mem * AlternateScreen :=
  if usingAlternate (snd st)
  then AlternateScreen_drawTextDirect text st
  else on_hist (HistoryScreen_Draw text) st.

Definition AlternateScreen_IsUsingAlternate (a : AlternateScreen) : bool := usingAlternate a.

Definition AlternateScreen_ScrollUp (n : Z) (st : Mem * AlternateScreen) : Mem * AlternateScreen :=
  if usingAlternate (snd st) then st else on_hist (HistoryScreen_ScrollUp n) st.

Definition AlternateScreen_ScrollDown (n : Z) (st : Mem * AlternateScreen) : Mem * AlternateScreen :=
  if usingAlternate (snd st) then st else on_hist (HistoryScreen_ScrollDown n) st.

Definition AlternateScreen_ScrollToBottom (a : AlternateScreen) : AlternateScreen :=
  if usingAlternate a then a else set_hist (HistoryScreen_ScrollToBottom a) a.

(** [Reset]: back on the main screen, the history screen is reset, the
    alternate grids are cleared, the alternate cursor and tab stops are
    the initial ones. *)
Definition AlternateScreen_Reset (st : Mem * AlternateScreen) : Mem * AlternateScreen :=
  let '(m, a) := st in
  let a := if usingAlternate a then AlternateScreen_switchToMain a else a in
  let '(m, a) := on_hist HistoryScreen_Reset (m, a) in
  let m := set_runes (store (runes m) (altBuffer a)
             (fill_grid (columns a) (lines a) space (load [] (runes m) (altBuffer a)))) m in
  let m := set_styles (store (styles m) (altAttrs a)
             (fill_grid (columns a) (lines a) DefaultAttributes (load [] (styles m) (altAttrs a)))) m in
  let a := set_altCursor (mkCursor 0 0 DefaultAttributes false) a in
  let '(m, t) := new_tabmap (default_tabs (columns a)) m in
  (m, set_altTabStops t a).

(** ** WideCharScreen *)

Record WideCharScreen := mkWideCharScreen {
  alt :> AlternateScreen;
  cellWidths : loc;
  altCellWidths : loc;
  mainCellWidths : loc
}.

Definition set_alt (v : AlternateScreen) (w : WideCharScreen) : WideCharScreen :=
  mkWideCharScreen v (cellWidths w) (altCellWidths w) (mainCellWidths w).

(** The grid [w.cellWidths] points to, and a write through it. *)
Definition cw (m : Mem) (w : WideCharScreen) : list (list Z) := load [] (widths m) (cellWidths w).
Definition put_cw (g : list (list Z)) (m : Mem) (w : WideCharScreen) : Mem :=
  set_widths (store (widths m) (cellWidths w) g) m.

(** A method of the embedded AlternateScreen, run on the embedded value. *)
Definition on_alt (f : Mem * AlternateScreen -> Mem * AlternateScreen)
    (st : Mem * WideCharScreen) : Mem * WideCharScreen :=
  let '(m, w) := st in
  let '(m, a) := f (m, alt w) in
  (m, set_alt a w).

Definition NewWideCharScreen (columns lines maxHistory : Z) (m : Mem) : Mem * WideCharScreen :=
  let '(m, a) := NewAlternateScreen columns lines maxHistory m in
  let '(m, c) := new_widths (fill_grid columns lines 1 (make (make 0 columns) lines)) m in
  let '(m, ac) := new_widths (fill_grid columns lines 1 (make (make 0 columns) lines)) m in
  (m, mkWideCharScreen a c ac c).

(** [clearCellAt(y, x)] for [x = k >= 0]; the recursive call is on [k - 1]. *)
Fixpoint clearCellAt_from (w : WideCharScreen) (y : Z) (k : nat) (m : Mem) : Mem :=
  let x := Z.of_nat k in
  if (lines w <=? y) || (columns w <=? x) then m
  else
    let width := cell 0 (cw m w) y x in
    let clear :=
      let m := put_buf (set_cell (buf m w) y x space) m w in
      let m := put_att (set_cell (att m w) y x DefaultAttributes) m w in
      let m := put_cw (set_cell (cw m w) y x 1) m w in
      if (width =? 2) && (iadd x 1 <? columns w) then
        let m := put_buf (set_cell (buf m w) y (iadd x 1) space) m w in
        let m := put_att (set_cell (att m w) y (iadd x 1) DefaultAttributes) m w in
        put_cw (set_cell (cw m w) y (iadd x 1) 1) m w
      else m in
    match k with
    | S k' => if width =? 0 then clearCellAt_from w y k' m else clear
    | O => clear
    end.

Definition WideCharScreen_clearCellAt (y x : Z) (m : Mem) (w : WideCharScreen) : Mem :=
  if x <? 0 then m else clearCellAt_from w y (Z.to_nat x) m.

Section RuneWidth.

(** [runewidth.RuneWidth] of go-runewidth: the number of columns a code
    point takes, 0, 1 or 2. *)
Variable RuneWidth : rune -> Z.

(** [handleZeroWidth] reads the grid and writes nothing: the combining mark
    is dropped. *)
Definition WideCharScreen_handleZeroWidth (ch : rune) (st : Mem * WideCharScreen) : Mem * WideCharScreen := st.

Definition WideCharScreen_drawChar (ch : rune) (st : Mem * WideCharScreen) : Mem * WideCharScreen :=
  let '(m, w) := st in
  let charWidth := RuneWidth ch in
  if charWidth =? 0 then WideCharScreen_handleZeroWidth ch (m, w)
  else
    let fits :=
      if columns w <? iadd (X (cursor w)) charWidth then
        if autoWrap w then
          let w := set_alt (on_native (moveX 0) w) w in
          let w := set_alt (on_native (moveY (iadd (Y (cursor w)) 1)) w) w in
          if lines w <=? Y (cursor w) then
            let m :=
              if usingAlternate w then AlternateScreen_scrollUpNoHistory m w
              else HistoryScreen_scrollUpInternal (HistoryScreen_addToHistory 0 m w) w in
            Some (m, set_alt (on_native (moveY (isub (lines w) 1)) w) w)
          else Some (m, w)
        else None
      else Some (m, w) in
    match fits with
    | None => (m, w)
    | Some (m, w) =>
      if (Y (cursor w) <? lines w) && (X (cursor w) <? columns w) then
        let y := Y (cursor w) in
        let x := X (cursor w) in
        let m := WideCharScreen_clearCellAt y x m w in
        let m := put_buf (set_cell (buf m w) y x ch) m w in
        let m := put_att (set_cell (att m w) y x (Attrs (cursor w))) m w in
        let m := put_cw (set_cell (cw m w) y x charWidth) m w in
        let m :=
          if (charWidth =? 2) && (iadd x 1 <? columns w) then
            let m := put_buf (set_cell (buf m w) y (iadd x 1) 0) m w in
            let m := put_att (set_cell (att m w) y (iadd x 1) (Attrs (cursor w))) m w in
            put_cw (set_cell (cw m w) y (iadd x 1) 0) m w
          else m in
        (m, set_alt (on_native (moveX (iadd x charWidth)) w) w)
      else (m, w)
    end.

Definition WideCharScreen_Draw (text : list rune) (st : Mem * WideCharScreen) : Mem * WideCharScreen :=
  let '(m, w) := st in
  let w :=
    if negb (usingAlternate w) && viewingHistory w
    then set_alt (AlternateScreen_ScrollToBottom w) w
    else w in
  fold_left (fun st ch => WideCharScreen_drawChar ch st) text (m, w).

End RuneWidth.

(** The inner loop of [CursorBack]: [for X > 0 && cellWidths[Y][X] == 0 { X-- }],
    with at most [fuel] steps, which [X] bounds. *)
Fixpoint skip_continuations (g : list (list Z)) (y : Z) (fuel : nat) (x : Z) : Z :=
  match fuel with
  | O => x
  | S fuel =>
    if (0 <? x) && (cell 0 g y x =? 0)
    then skip_continuations g y fuel (isub x 1)
    else x
  end.

Definition WideCharScreen_CursorBack (count : Z) (m : Mem) (w : WideCharScreen) : WideCharScreen :=
  let x :=
    for_break (seqZ 0 count) (fun _ x => 0 <? x)
      (fun _ x => let x := isub x 1 in skip_continuations (cw m w) (Y (cursor w)) (Z.to_nat x) x)
      (X (cursor w)) in
  set_alt (on_native (moveX (if x <? 0 then 0 else x)) w) w.

Definition WideCharScreen_CursorForward (count : Z) (m : Mem) (w : WideCharScreen) : WideCharScreen :=
  let x :=
    for_break (seqZ 0 count) (fun _ x => x <? isub (columns w) 1)
      (fun _ x => if cell 0 (cw m w) (Y (cursor w)) x =? 2 then iadd x 2 else iadd x 1)
      (X (cursor w)) in
  set_alt (on_native (moveX (if columns w <=? x then isub (columns w) 1 else x)) w) w.

Definition WideCharScreen_EraseCharacters (count : Z) (m : Mem) (w : WideCharScreen) : Mem :=
  snd (for_break (seqZ 0 count) (fun _ xm => fst xm <? columns w)
         (fun _ xm =>
            let '(x, m) := xm in
            let m := WideCharScreen_clearCellAt (Y (cursor w)) x m w in
            if (x <? isub (columns w) 1) && (cell 0 (cw m w) (Y (cursor w)) (iadd x 1) =? 0)
            then (iadd x 2, m) else (iadd x 1, m))
         (X (cursor w), m)).

(** [GetDisplay] of the wide layer: continuation cells and zero code points
    are left out. *)
Definition WideCharScreen_GetDisplay (m : Mem) (w : WideCharScreen) : list (list rune) :=
  map (fun y =>
         flat_map (fun x =>
           if cell 0 (cw m w) y x =? 0 then []
           else let ch := cell 0 (buf m w) y x in
                if ch =? 0 then [] else [ch])
           (seqZ 0 (columns w)))
      (seqZ 0 (lines w)).

(** [GetDisplay] of the base layer keeps every cell; the strings are
    trimmed of their trailing spaces. *)
Fixpoint trim_right (l : list rune) : list rune :=
  match l with
  | [] => []
  | c :: l =>
    match trim_right l with
    | [] => if c =? space then [] else [c]
    | l' => c :: l'
    end
  end.

Definition NativeScreen_GetDisplay (m : Mem) (s : NativeScreen) : list (list rune) :=
  map (fun y => trim_right (row (buf m s) y)) (seqZ 0 (lines s)).

(** A fresh row [make([]int, n)] whose cells the loop sets to 1. *)
Definition ones (n : Z) : list Z :=
  for_range 0 n (fun j r => <[Z.to_nat j := 1]> r) (make 0 n).

(** [rebuildWidthGrid]: the grid cut or padded to [newLines] rows of
    [newCols] widths; new cells are 1. *)
Definition rebuildWidthGrid (grid : list (list Z)) (newCols newLines : Z) : list (list Z) :=
  let grid :=
    if newLines <? Z.of_nat (length grid) then take (Z.to_nat newLines) grid
    else if Z.of_nat (length grid) <? newLines then
      for_range 0 (isub newLines (Z.of_nat (length grid)))
        (fun _ g => g ++ [ones newCols]) grid
    else grid in
  for_range 0 newLines (fun y g =>
    let r := row g y in
    let r :=
      if newCols <? Z.of_nat (length r) then take (Z.to_nat newCols) r
      else if Z.of_nat (length r) <? newCols then
        r ++ ones (isub newCols (Z.of_nat (length r)))
      else r in
    set_row g y r) grid.

(** ** The operations a consumer or the stream parser calls

    [Op] names the calls; [HistoryScreen_do], [AlternateScreen_do] and
    [WideCharScreen_do] run a call on a screen of that layer, each with the
    method that Go selects for the layer: its own where it declares one,
    the embedded struct's otherwise. *)

Inductive Op :=
| Draw (text : list rune)
| Bell
| Backspace
| Tab
| Linefeed
| CarriageReturn
| ShiftOut
| ShiftIn
| CursorUp (count : Z)
| CursorDown (count : Z)
| CursorForward (count : Z)
| CursorBack (count : Z)
| CursorUp1 (count : Z)
| CursorDown1 (count : Z)
| CursorPosition (line column : Z)
| CursorToColumn (column : Z)
| CursorToLine (line : Z)
| Reset
| Index
| ReverseIndex
| SetTabStop
| ClearTabStop (how : Z)
| SaveCursor
| RestoreCursor
| InsertLines (count : Z)
| DeleteLines (count : Z)
| InsertCharacters (count : Z)
| DeleteCharacters (count : Z)
| EraseCharacters (count : Z)
| EraseInLine (how : Z)
| EraseInDisplay (how : Z)
| SetMode (modes : list Z) (private : bool)
| ResetMode (modes : list Z) (private : bool)
| SelectGraphicRendition (params : list Z)
| DefineCharset (code mode : string)
| SetMargins (top bottom : Z)
| ReportDeviceAttributes (mode : Z) (private : bool)
| ReportDeviceStatus (mode : Z)
| SetTitle (title : string)
| SetIconName (name : string)
| AlignmentDisplay
| Debug
| WriteProcessInput (data : string)
| ScrollUp (n : Z)
| ScrollDown (n : Z)
| ScrollToBottom.

(** The methods of NativeScreen; the stubs of the source (Bell, ShiftOut,
    ShiftIn, DefineCharset, SetMargins, the two reports, Debug and
    WriteProcessInput) do nothing, and the scroll calls are not methods of
    this layer. *)
Definition NativeScreen_do (op : Op) (st : Mem * NativeScreen) : Mem * NativeScreen :=
  let '(m, s) := st in
  match op with
  | Draw text => NativeScreen_Draw text (m, s)
  | Backspace => (m, NativeScreen_Backspace s)
  | Tab => (m, NativeScreen_Tab m s)
  | Linefeed => NativeScreen_Linefeed (m, s)
  | CarriageReturn => (m, NativeScreen_CarriageReturn s)
  | Index => NativeScreen_Index (m, s)
  | CursorUp n => (m, NativeScreen_CursorUp n s)
  | CursorDown n => (m, NativeScreen_CursorDown n s)
  | CursorForward n => (m, NativeScreen_CursorForward n s)
  | CursorBack n => (m, NativeScreen_CursorBack n s)
  | CursorPosition l c => (m, NativeScreen_CursorPosition l c s)
  | CursorToColumn c => (m, NativeScreen_CursorToColumn c s)
  | CursorToLine l => (m, NativeScreen_CursorToLine l s)
  | SelectGraphicRendition ps => (m, NativeScreen_SelectGraphicRendition ps s)
  | SetTabStop => (NativeScreen_SetTabStop m s, s)
  | ClearTabStop how => NativeScreen_ClearTabStop how (m, s)
  | SaveCursor => (m, NativeScreen_SaveCursor s)
  | RestoreCursor => (m, NativeScreen_RestoreCursor s)
  | EraseCharacters n => (NativeScreen_EraseCharacters n m s, s)
  | EraseInLine how => (NativeScreen_EraseInLine how m s, s)
  | EraseInDisplay how => (NativeScreen_EraseInDisplay how m s, s)
  | SetMode modes private => (m, NativeScreen_SetMode modes private s)
  | ResetMode modes private => (m, NativeScreen_ResetMode modes private s)
  | CursorUp1 n => (m, NativeScreen_CursorUp1 n s)
  | CursorDown1 n => (m, NativeScreen_CursorDown1 n s)
  | Reset => NativeScreen_Reset (m, s)
  | ReverseIndex => NativeScreen_ReverseIndex (m, s)
  | InsertLines n => (NativeScreen_InsertLines n m s, s)
  | DeleteLines n => (NativeScreen_DeleteLines n m s, s)
  | InsertCharacters n => (NativeScreen_InsertCharacters n m s, s)
  | DeleteCharacters n => (NativeScreen_DeleteCharacters n m s, s)
  | SetTitle t => (m, NativeScreen_SetTitle t s)
  | SetIconName n => (m, NativeScreen_SetIconName n s)
  | AlignmentDisplay => (NativeScreen_AlignmentDisplay m s, s)
  | Bell | ShiftOut | ShiftIn | DefineCharset _ _ | SetMargins _ _
  | ReportDeviceAttributes _ _ | ReportDeviceStatus _ | Debug | WriteProcessInput _ => (m, s)
  | ScrollUp _ | ScrollDown _ | ScrollToBottom => (m, s)
  end.

Definition HistoryScreen_do (op : Op) (st : Mem * HistoryScreen) : Mem * HistoryScreen :=
  let '(m, h) := st in
  match op with
  | Draw text => HistoryScreen_Draw text (m, h)
  | Linefeed => HistoryScreen_Linefeed (m, h)
  | Index => HistoryScreen_Index (m, h)
  | EraseInDisplay how => HistoryScreen_EraseInDisplay how (m, h)
  | Reset => HistoryScreen_Reset (m, h)
  | ScrollUp n => HistoryScreen_ScrollUp n (m, h)
  | ScrollDown n => HistoryScreen_ScrollDown n (m, h)
  | ScrollToBottom => (m, HistoryScreen_ScrollToBottom h)
  | _ => let '(m, s) := NativeScreen_do op (m, native h) in (m, set_native s h)
  end.

Definition AlternateScreen_do (op : Op) (st : Mem * AlternateScreen) : Mem * AlternateScreen :=
  match op with
  | Draw text => AlternateScreen_Draw text st
  | Linefeed => AlternateScreen_Linefeed st
  | Index => AlternateScreen_Index st
  | SetMode modes private => AlternateScreen_SetMode modes private st
  | ResetMode modes private => AlternateScreen_ResetMode modes private st
  | Reset => AlternateScreen_Reset st
  | ScrollUp n => AlternateScreen_ScrollUp n st
  | ScrollDown n => AlternateScreen_ScrollDown n st
  | ScrollToBottom => (fst st, AlternateScreen_ScrollToBottom (snd st))
  | _ => on_hist (HistoryScreen_do op) st
  end.

Definition WideCharScreen_do (RuneWidth : rune -> Z) (op : Op)
    (st : Mem * WideCharScreen) : Mem * WideCharScreen :=
  match op with
  | Draw text => WideCharScreen_Draw RuneWidth text st
  | CursorBack n => (fst st, WideCharScreen_CursorBack n (fst st) (snd st))
  | CursorForward n => (fst st, WideCharScreen_CursorForward n (fst st) (snd st))
  | EraseCharacters n => (WideCharScreen_EraseCharacters n (fst st) (snd st), snd st)
  | _ => on_alt (AlternateScreen_do op) st
  end.

(** A sequence of calls, first call first. *)
Definition run {S} (step : Op -> S -> S) (ops : list Op) (st : S) : S :=
  fold_left (fun st op => step op st) ops st.

(** The queries of the top layer. *)
Definition GetCursor (w : WideCharScreen) : Z * Z := (X (cursor w), Y (cursor w)).
Definition GetHistorySize (m : Mem) (w : WideCharScreen) : Z := HistoryScreen_GetHistorySize m w.
Definition IsViewingHistory (w : WideCharScreen) : bool := viewingHistory w.

(** A display-width function for the examples: 2 on the CJK unified
    ideographs U+4E00..U+9FFF, 0 on the combining diacritical marks
    U+0300..U+036F, 1 elsewhere.  go-runewidth gives these widths to the
    code points drawn in the examples. *)
Definition sampleRuneWidth (r : rune) : Z :=
  if (0x4E00 <=? r) && (r <=? 0x9FFF) then 2
  else if (0x0300 <=? r) && (r <=? 0x036F) then 0
  else 1.

(** ** What the specification states, as predicates *)

(** A location that points into a heap. *)
Definition valid {A} (h : list A) (r : loc) : Prop :=
  exists i : nat, r = Some i /\ (i < length h)%nat.

(** A grid of [lines] rows of [columns] cells. *)
Definition shaped {A} (columns lines : Z) (g : list (list A)) : Prop :=
  length g = Z.to_nat lines /\ Forall (fun r => length r = Z.to_nat columns) g.

(** The invariant on the width grid: every width is 0, 1 or 2; a 2 is not in
    the last column and is followed by a 0; a 0 is in column 0 or follows a
    2 or a 0. *)
Definition width_invariant (columns lines : Z) (g : list (list Z)) : Prop :=
  forall y x, 0 <= y < lines -> 0 <= x < columns ->
    (cell 0 g y x = 0 \/ cell 0 g y x = 1 \/ cell 0 g y x = 2) /\
    (cell 0 g y x = 2 -> x + 1 < columns /\ cell 0 g y (x + 1) = 0) /\
    (cell 0 g y x = 0 -> x = 0 \/ cell 0 g y (x - 1) = 2 \/ cell 0 g y (x - 1) = 0).

(** Every cell of the visible grid is a space with default attributes. *)
Definition all_blank (m : Mem) (s : NativeScreen) : Prop :=
  forall y x, 0 <= y < lines s -> 0 <= x < columns s ->
    cell 0 (buf m s) y x = space /\ cell zeroAttributes (att m s) y x = DefaultAttributes.

(** Scenario 4 of the specification, on a 4 x 2 screen after drawing "ab世":
    row 0 is "ab" and two blanks, row 1 starts with the wide pair, the cursor
    is at (2, 1). *)
Definition scenario4_expected (st : Mem * WideCharScreen) : Prop :=
  let '(m, w) := st in
  row (buf m w) 0 = [97; 98; space; space] /\
  cell 0 (buf m w) 1 0 = 0x4E16 /\
  cell 0 (cw m w) 1 0 = 2 /\ cell 0 (cw m w) 1 1 = 0 /\
  GetCursor w = (2, 1).

(** ** Well-formed screens *)

(** The dimensions are positive ints, with room for the cursor to step two
    columns past the edge. *)
Definition dims_ok (s : NativeScreen) : Prop :=
  0 < columns s /\ columns s + 2 <= int_max /\ 0 < lines s /\ lines s + 2 <= int_max.

(** Where a cursor of the screen [s] may rest: on a row of the grid, in a
    column of the grid or just past the last one. *)
Definition cursor_ok (s : NativeScreen) (c : Cursor) : Prop :=
  0 <= X c <= columns s /\ 0 <= Y c <= lines s - 1.

Record wf_native (m : Mem) (s : NativeScreen) : Prop := {
  wf_dims : dims_ok s;
  wf_cursor : cursor_ok s (cursor s);
  wf_buffer : valid (runes m) (buffer s);
  wf_attrs : valid (styles m) (attrs s);
  wf_tabStops : valid (tabmaps m) (tabStops s);
  wf_buf : shaped (columns s) (lines s) (buf m s);
  wf_att : shaped (columns s) (lines s) (att m s)
}.

(** A history screen in the live view: nothing is saved, the offset is 0. *)
Record wf_history (m : Mem) (h : HistoryScreen) : Prop := {
  wf_h_native : wf_native m h;
  wf_h_history : valid (lists m) (history h);
  wf_h_maxHistory : 0 <= maxHistory h /\ maxHistory h + lines h <= int_max;
  wf_h_len : history_Len m h <= maxHistory h;
  wf_h_savedCursor : cursor_ok h (savedCursor h)
}.

Definition live (h : HistoryScreen) : Prop :=
  viewingHistory h = false /\ historyPos h = 0.

(** ** Footprints *)

(** [h'] extends the heap [h] and agrees with it on the objects of [h]
    other than [r]. *)
Definition ext_but {A} (r : loc) (h h' : list A) : Prop :=
  (length h <= length h')%nat /\
  forall i : nat, (i < length h)%nat -> Some i <> r -> h' !! i = h !! i.

(** The location [r'] is [r] or was allocated after the heap [h]. *)
Definition same_or_fresh {A} (h : list A) (r r' : loc) : Prop :=
  r' = r \/ exists j : nat, r' = Some j /\ (length h <= j)%nat.

(** The cursor is on a cell of the grid. *)
Definition cursor_inside (s : NativeScreen) (c : Cursor) : Prop :=
  0 <= X c <= columns s - 1 /\ 0 <= Y c <= lines s - 1.

(** The store [m'] extends [m] and agrees with it on the objects of [m]
    other than the five named ones, one per heap. *)
Definition mem_but (rb ra rw rt rh : loc) (m m' : Mem) : Prop :=
  ext_but rb (runes m) (runes m') /\ ext_but ra (styles m) (styles m') /\
  ext_but rw (widths m) (widths m') /\ ext_but rt (tabmaps m) (tabmaps m') /\
  ext_but rh (lists m) (lists m').

(** The screen with its cursor hidden. *)
Definition hide (h : HistoryScreen) : HistoryScreen :=
  set_native (set_cursor (setHidden true (cursor h)) h) h.

(** The store and the screen once the live screen is saved for a history
    view: the two copies are the next objects of their heaps. *)
Definition saved_mem (m : Mem) (h : HistoryScreen) : Mem :=
  mkMem (runes m ++ [buf m h]) (styles m ++ [att m h]) (widths m) (tabmaps m) (lists m).

Definition saved_scr (m : Mem) (h : HistoryScreen) : HistoryScreen :=
  set_viewingHistory true
    (set_savedCursor (cursor h)
       (set_savedAttrs (Some (length (styles m)))
          (set_savedBuffer (Some (length (runes m))) h))).

(** ** Two concrete screens *)

(** A 2 x 1 screen with autowrap off on which "ab" was drawn: the cursor is
    past the last column. *)
Definition past_edge_mem : Mem :=
  mkMem [[[97; 98]]; [[space; space]]]
        [[[zeroAttributes; zeroAttributes]]; [[zeroAttributes; zeroAttributes]]]
        [[[1; 1]]; [[1; 1]]]
        [default_tabs 2; default_tabs 2]
        [[]].

Definition past_edge_scr : WideCharScreen :=
  mkWideCharScreen
    (mkAlternateScreen
       (mkHistoryScreen
          (mkNativeScreen 2 1 (Some 0%nat) (Some 0%nat) (mkCursor 2 0 zeroAttributes false)
             None "" "" false true (Some 0%nat))
          (Some 0%nat) 10 0 nil nil zeroCursor false)
       nil nil zeroCursor nil nil (Some 1%nat) (Some 1%nat) zeroCursor (Some 1%nat) false)
    (Some 0%nat) (Some 1%nat) (Some 0%nat).

(** A 2 x 2 screen on which "a", "b" and "c" were drawn on successive
    lines: "a" has scrolled into the history. *)
Definition abc_mem : Mem :=
  mkMem [[[98; space]; [99; space]]; [[space; space]; [space; space]]]
        [[[zeroAttributes; zeroAttributes]; [zeroAttributes; zeroAttributes]];
         [[zeroAttributes; zeroAttributes]; [zeroAttributes; zeroAttributes]]]
        [[[1; 1]; [1; 1]]; [[1; 1]; [1; 1]]]
        [default_tabs 2; default_tabs 2]
        [[mkHistoryLine [97; space] [zeroAttributes; zeroAttributes]]].

Definition abc_scr : WideCharScreen :=
  mkWideCharScreen
    (mkAlternateScreen
       (mkHistoryScreen
          (mkNativeScreen 2 2 (Some 0%nat) (Some 0%nat) (mkCursor 1 1 zeroAttributes false)
             None "" "" true true (Some 0%nat))
          (Some 0%nat) 10 0 nil nil zeroCursor false)
       nil nil zeroCursor nil nil (Some 1%nat) (Some 1%nat) zeroCursor (Some 1%nat) false)
    (Some 0%nat) (Some 1%nat) (Some 0%nat).

(** ** Where the cursors rest *)

(** A cursor on a [c] x [l] grid, or just past the end of one of its rows. *)
Definition on_grid (c l : Z) (k : Cursor) : Prop :=
  0 <= X k <= c /\ 0 <= Y k <= l - 1.

(** The screen has [c] columns and [l] lines, and every cursor it holds is
    on the grid or just past the end of a row: on the base layer the cursor
    and the one SaveCursor saved; on the history layer also the one saved
    for the history view; on the alternate layer also those of the main and
    of the alternate screen. *)
Definition native_rests (c l : Z) (s : NativeScreen) : Prop :=
  columns s = c /\ lines s = l /\ on_grid c l (cursor s) /\
  (forall k, saved s = Some k -> on_grid c l k).

Definition history_rests (c l : Z) (h : HistoryScreen) : Prop :=
  native_rests c l h /\ on_grid c l (savedCursor h).

Definition alternate_rests (c l : Z) (a : AlternateScreen) : Prop :=
  history_rests c l a /\ on_grid c l (mainCursor a) /\ on_grid c l (altCursor a).

(** The count of a relative cursor move is not negative, and small enough
    for the sum with a position on a [c] x [l] grid to be an [int]. *)
Definition count_ok (c l : Z) (op : Op) : Prop :=
  match op with
  | CursorUp n | CursorDown n | CursorForward n | CursorBack n
  | CursorUp1 n | CursorDown1 n =>
      0 <= n /\ n + c <= int_max /\ n + l <= int_max
  | _ => True
  end.

(** * Properties *)

(** ** Machine integers *)

Lemma wrap_small z : is_int z -> wrap z = z.
Proof.
  unfold is_int, int_min, int_max, wrap. intros Hz.
  rewrite Z.mod_small by lia. lia.
Qed.

Lemma iadd_small a b : is_int (a + b) -> iadd a b = a + b.
Proof. apply wrap_small. Qed.

Lemma isub_small a b : is_int (a - b) -> isub a b = a - b.
Proof. apply wrap_small. Qed.

(** ** The width function enters a drawing through the drawn code points only *)

Lemma WideCharScreen_drawChar_ext (f g : rune -> Z) ch st :
  f ch = g ch -> WideCharScreen_drawChar f ch st = WideCharScreen_drawChar g ch st.
Proof. intros E. unfold WideCharScreen_drawChar. destruct st. rewrite E. reflexivity. Qed.

Lemma WideCharScreen_Draw_ext (f g : rune -> Z) text st :
  Forall (fun ch => f ch = g ch) text ->
  WideCharScreen_Draw f text st = WideCharScreen_Draw g text st.
Proof.
  intros H. unfold WideCharScreen_Draw. destruct st as [m w].
  generalize (m, if negb (usingAlternate w) && viewingHistory w
                 then set_alt (AlternateScreen_ScrollToBottom w) w else w).
  induction H as [|ch text E _ IH]; intros st; simpl; [reflexivity|].
  rewrite (WideCharScreen_drawChar_ext f g ch st E). apply IH.
Qed.

(** ** Wide characters at the right edge *)

(** C8, as the code behaves: on a 4 x 2 wide-character screen with autowrap
    on, the pair of "世" fits in columns 2 and 3 after "ab": row 0 holds
    'a', 'b', the wide start and its continuation, row 1 stays blank, and the
    cursor rests at (4, 0). *)
Theorem wide_pair_fits_after_two_columns (RuneWidth : rune -> Z) (maxHistory : Z) :
  RuneWidth 97 = 1 -> RuneWidth 98 = 1 -> RuneWidth 0x4E16 = 2 ->
  let st := WideCharScreen_Draw RuneWidth [97; 98; 0x4E16]
              (NewWideCharScreen 4 2 maxHistory emptyMem) in
  autoWrap (snd st) = true /\
  buf (fst st) (snd st) = [[97; 98; 0x4E16; 0]; [space; space; space; space]] /\
  cw (fst st) (snd st) = [[1; 1; 2; 0]; [1; 1; 1; 1]] /\
  GetCursor (snd st) = (4, 0).
Proof.
  intros Ha Hb Hw.
  rewrite (WideCharScreen_Draw_ext RuneWidth sampleRuneWidth).
  - vm_compute. repeat split; reflexivity.
  - repeat constructor; [rewrite Ha|rewrite Hb|rewrite Hw]; reflexivity.
Qed.

Lemma wide_pair_fits_after_two_columns_witness :
  let st := WideCharScreen_Draw sampleRuneWidth [97; 98; 0x4E16]
              (NewWideCharScreen 4 2 10 emptyMem) in
  autoWrap (snd st) = true /\
  buf (fst st) (snd st) = [[97; 98; 0x4E16; 0]; [space; space; space; space]] /\
  cw (fst st) (snd st) = [[1; 1; 2; 0]; [1; 1; 1; 1]] /\
  GetCursor (snd st) = (4, 0).
Proof.
  apply (wide_pair_fits_after_two_columns sampleRuneWidth 10); reflexivity.
Defined.

(** C8, as stated, fails: the drawing does not wrap. *)
Lemma scenario4_expected_fails :
  ~ scenario4_expected
      (WideCharScreen_Draw sampleRuneWidth [97; 98; 0x4E16]
         (NewWideCharScreen 4 2 10 emptyMem)).
Proof.
  intros H. vm_compute in H. destruct H as (H & _). discriminate H.
Qed.

(** With one more narrow character before it the pair does not fit and
    wraps: "abc世" leaves "abc" and a blank in row 0, the pair in columns 0
    and 1 of row 1, and the cursor at (2, 1). *)
Lemma wide_pair_wraps_after_three_columns :
  let st := WideCharScreen_Draw sampleRuneWidth [97; 98; 99; 0x4E16]
              (NewWideCharScreen 4 2 10 emptyMem) in
  buf (fst st) (snd st) = [[97; 98; 99; space]; [0x4E16; 0; space; space]] /\
  cw (fst st) (snd st) = [[1; 1; 1; 1]; [2; 0; 1; 1]] /\
  GetCursor (snd st) = (2, 1).
Proof. vm_compute. repeat split; reflexivity. Qed.

(** ** The width grid *)

(** C2 at a failing input: on a 4-column screen, "a世", carriage return, "世",
    carriage return, "a" leaves row 0 of the width grid as 1 1 0 1: the 0 in
    column 2 follows a 1. *)
Theorem overwritten_pairs_leave_a_stray_continuation :
  let st := run (WideCharScreen_do sampleRuneWidth)
              [Draw [97; 0x4E16]; CarriageReturn; Draw [0x4E16]; CarriageReturn; Draw [97]]
              (NewWideCharScreen 4 2 10 emptyMem) in
  cw (fst st) (snd st) = [[1; 1; 0; 1]; [1; 1; 1; 1]] /\
  ~ width_invariant (columns (snd st)) (lines (snd st)) (cw (fst st) (snd st)).
Proof.
  cbv zeta. split; [vm_compute; reflexivity|].
  intros H. destruct (H 0 2) as (_ & _ & H3); [vm_compute; split; congruence..|].
  destruct H3 as [E|[E|E]]; [vm_compute; reflexivity|vm_compute in E; discriminate E..].
Qed.

(** ** Erasing the whole screen *)

(** C7 at a failing input: on a 2 x 1 history screen, after SGR 31, drawing
    "A" and EraseInDisplay(2), the characters are spaces and the history is
    empty, but cell (0, 0) keeps the red foreground it was drawn with. *)
Theorem EraseInDisplay_keeps_the_attributes :
  let st := run HistoryScreen_do
              [SelectGraphicRendition [31]; Draw [65]; EraseInDisplay 2]
              (NewHistoryScreen 2 1 10 emptyMem) in
  buf (fst st) (snd st) = [[space; space]] /\
  HistoryScreen_GetHistorySize (fst st) (snd st) = 0 /\
  Fg (cell zeroAttributes (att (fst st) (snd st)) 0 0) = "red"%string /\
  ~ all_blank (fst st) (snd st).
Proof.
  cbv zeta. split; [vm_compute; reflexivity|].
  split; [vm_compute; reflexivity|].
  split; [vm_compute; reflexivity|].
  intros H. destruct (H 0 0) as (_ & E); [vm_compute; split; congruence..|].
  vm_compute in E. discriminate E.
Qed.

(** ** The store *)

Section Heap.
Context {A : Type}.
Implicit Types (h : list A) (r : loc) (v z : A).

Lemma load_store_eq z h r v : valid h r -> load z (store h r v) r = v.
Proof.
  intros (i & -> & Hi). unfold load, store.
  by rewrite list_lookup_insert_eq.
Qed.

Lemma load_store_ne z h r r' v : r <> r' -> load z (store h r v) r' = load z h r'.
Proof.
  intros Hne. destruct r as [i|], r' as [j|]; simpl; try reflexivity.
  rewrite list_lookup_insert_ne; [reflexivity|congruence].
Qed.

Lemma length_store h r v : length (store h r v) = length h.
Proof. destruct r; simpl; [apply length_insert|reflexivity]. Qed.

Lemma valid_store h r r' v : valid h r' -> valid (store h r v) r'.
Proof. intros (i & -> & Hi). exists i. by rewrite length_store. Qed.

Lemma valid_app h r v : valid h r -> valid (h ++ [v]) r.
Proof. intros (i & -> & Hi). exists i. rewrite length_app. split; [done|lia]. Qed.

Lemma valid_new h v : valid (h ++ [v]) (Some (length h)).
Proof. exists (length h). rewrite length_app. simpl. split; [done|lia]. Qed.

Lemma valid_not_new h r : valid h r -> r <> Some (length h).
Proof. intros (i & -> & Hi) [= ->]. lia. Qed.

Lemma load_app_old z h r v : valid h r -> load z (h ++ [v]) r = load z h r.
Proof. intros (i & -> & Hi). unfold load. by rewrite lookup_app_l. Qed.

Lemma load_app_new z h v : load z (h ++ [v]) (Some (length h)) = v.
Proof. unfold load. by rewrite list_lookup_middle. Qed.

Lemma ext_but_refl r h : ext_but r h h.
Proof. split; [lia|done]. Qed.

Lemma ext_but_store r h v : ext_but r h (store h r v).
Proof.
  split; [by rewrite length_store|].
  intros i Hi Hne. destruct r as [j|]; simpl; [|done].
  rewrite list_lookup_insert_ne; [done|congruence].
Qed.

Lemma ext_but_app r h v : ext_but r h (h ++ [v]).
Proof.
  split; [rewrite length_app; lia|].
  intros i Hi _. by rewrite lookup_app_l.
Qed.

(** Footprints compose, also when the written object changes to a fresh one. *)
Lemma ext_but_trans r r' h h1 h2 :
  ext_but r h h1 -> same_or_fresh h r r' -> ext_but r' h1 h2 -> ext_but r h h2.
Proof.
  intros [L1 E1] Hr [L2 E2]. split; [lia|].
  intros i Hi Hne. rewrite E2, E1; try done; try lia.
  destruct Hr as [->|(j & -> & Hj)]; [done|]. intros [= ->]. lia.
Qed.

Lemma ext_but_load z r r' h h' :
  ext_but r h h' -> valid h r' -> r' <> r -> load z h' r' = load z h r'.
Proof.
  intros [_ E] (i & -> & Hi) Hne. unfold load. rewrite E; [done|done|congruence].
Qed.

Lemma ext_but_valid r r' h h' : ext_but r h h' -> valid h r' -> valid h' r'.
Proof. intros [L _] (i & -> & Hi). exists i. split; [done|lia]. Qed.

Lemma same_or_fresh_refl h r : same_or_fresh h r r.
Proof. by left. Qed.

Lemma same_or_fresh_new h r : same_or_fresh h r (Some (length h)).
Proof. right. exists (length h). split; [done|lia]. Qed.

Lemma same_or_fresh_trans r r1 r2 h h1 :
  (length h <= length h1)%nat ->
  same_or_fresh h r r1 -> same_or_fresh h1 r1 r2 -> same_or_fresh h r r2.
Proof.
  intros L [->|(j & -> & Hj)] [->|(k & -> & Hk)].
  - by left.
  - right. exists k. split; [done|lia].
  - right. by exists j.
  - right. exists k. split; [done|lia].
Qed.

Lemma same_or_fresh_ne h r r' p : valid h p -> p <> r -> same_or_fresh h r r' -> p <> r'.
Proof.
  intros (i & -> & Hi) Hne [->|(j & -> & Hj)]; [done|]. intros [= ->]. lia.
Qed.

End Heap.

(** ** Grids *)

Section Grid.
Context {A : Type}.
Implicit Types (g : list (list A)) (r : list A) (v z : A) (x y : Z).

Lemma for_range_ind {S} (P : S -> Prop) lo hi (body : Z -> S -> S) (s : S) :
  P s -> (forall i s, lo <= i < hi -> P s -> P (body i s)) -> P (for_range lo hi body s).
Proof.
  intros H0 Hstep. unfold for_range.
  assert (Hin : forall i, i ∈ seqZ lo (hi - lo) -> lo <= i < hi).
  { intros i Hi. apply elem_of_seqZ in Hi. lia. }
  revert s H0 Hin. generalize (seqZ lo (hi - lo)).
  induction l as [|i l IH]; intros s H0 Hin; simpl; [done|].
  apply IH.
  - apply Hstep; [|done]. apply Hin. left.
  - intros j Hj. apply Hin. by right.
Qed.

Lemma for_break_ind {S} (P : S -> Prop) idx (cond : Z -> S -> bool) (body : Z -> S -> S) (s : S) :
  P s -> (forall i s, cond i s = true -> P s -> P (body i s)) -> P (for_break idx cond body s).
Proof.
  intros H0 Hstep. revert s H0.
  induction idx as [|i idx IH]; intros s H0; simpl; [done|].
  destruct (cond i s) eqn:E; [|done]. apply IH. by apply Hstep.
Qed.

Lemma shaped_length columns lines g : shaped columns lines g -> length g = Z.to_nat lines.
Proof. by intros [? _]. Qed.

Lemma shaped_row columns lines g y :
  shaped columns lines g -> 0 <= y < lines -> length (row g y) = Z.to_nat columns.
Proof.
  intros [L F] Hy. unfold row. rewrite (proj2 (Z.leb_le 0 y)) by lia.
  destruct (g !! Z.to_nat y) as [r|] eqn:E; simpl.
  - by apply (Forall_lookup_1 _ _ _ _ F E).
  - apply lookup_ge_None in E. lia.
Qed.

Lemma shaped_lookup columns lines g y :
  shaped columns lines g -> 0 <= y < lines -> g !! Z.to_nat y = Some (row g y).
Proof.
  intros [L F] Hy. unfold row. rewrite (proj2 (Z.leb_le 0 y)) by lia.
  destruct (g !! Z.to_nat y) as [r|] eqn:E; [done|].
  apply lookup_ge_None in E. lia.
Qed.

Lemma shaped_set_cell columns lines g y x v :
  shaped columns lines g -> shaped columns lines (set_cell g y x v).
Proof.
  intros [L F]. unfold set_cell. destruct (_ && _); [|done]. split.
  - by rewrite length_alter.
  - apply Forall_alter; [done|]. intros r _ Hr. by rewrite length_insert.
Qed.

Lemma shaped_set_row columns lines g y r :
  shaped columns lines g -> length r = Z.to_nat columns -> shaped columns lines (set_row g y r).
Proof.
  intros [L F] Hr. unfold set_row. destruct (0 <=? y); [|done]. split.
  - by rewrite length_insert.
  - destruct (decide (Z.to_nat y < length g)%nat) as [Hlt|Hge].
    + by apply Forall_insert.
    + rewrite list_insert_ge by lia. done.
Qed.

Lemma shaped_fill_row columns lines g c y v :
  shaped columns lines g -> shaped columns lines (fill_row c y v g).
Proof.
  intros H. unfold fill_row. apply for_range_ind; [done|].
  intros i s _ Hs. by apply shaped_set_cell.
Qed.

Lemma shaped_fill_grid columns lines g c l v :
  shaped columns lines g -> shaped columns lines (fill_grid c l v g).
Proof.
  intros H. unfold fill_grid. apply for_range_ind; [done|].
  intros i s _ Hs. by apply shaped_fill_row.
Qed.

Lemma length_copy (dst src : list A) : length (copy dst src) = length dst.
Proof.
  unfold copy. rewrite length_app, length_take, length_drop. lia.
Qed.

Lemma copy_same_length (dst src : list A) : length dst = length src -> copy dst src = src.
Proof.
  intros E. unfold copy. rewrite E, firstn_all, drop_ge by lia. apply app_nil_r.
Qed.

Lemma row_set_cell_eq g y x v :
  0 <= y -> 0 <= x -> row (set_cell g y x v) y = <[Z.to_nat x := v]> (row g y).
Proof.
  intros Hy Hx. unfold row, set_cell.
  rewrite (proj2 (Z.leb_le 0 y)), (proj2 (Z.leb_le 0 x)) by lia. simpl.
  rewrite list_lookup_alter_eq. by destruct (g !! Z.to_nat y).
Qed.

Lemma row_set_cell_ne g y y' x v : y <> y' -> row (set_cell g y x v) y' = row g y'.
Proof.
  intros Hne. unfold row, set_cell. destruct (0 <=? y') eqn:Ey'; [|done].
  destruct (0 <=? y) eqn:Ey, (0 <=? x); simpl; try done.
  rewrite list_lookup_alter_ne; [done|]. apply Z.leb_le in Ey, Ey'. lia.
Qed.

Lemma cell_set_cell_eq z g y x v :
  0 <= y -> 0 <= x -> (Z.to_nat x < length (row g y))%nat ->
  cell z (set_cell g y x v) y x = v.
Proof.
  intros Hy Hx Hlt. unfold cell. rewrite (proj2 (Z.leb_le 0 x)) by lia.
  rewrite row_set_cell_eq by done. by rewrite list_lookup_insert_eq.
Qed.

Lemma cell_set_cell_ne z g y x y' x' v :
  (y, x) <> (y', x') -> cell z (set_cell g y x v) y' x' = cell z g y' x'.
Proof.
  intros Hne. unfold cell. destruct (0 <=? x') eqn:Ex'; [|done].
  destruct (decide (y = y')) as [->|Hy].
  - unfold row, set_cell. destruct (0 <=? y') eqn:Ey'; [|done].
    destruct (0 <=? x) eqn:Ex; simpl; [|done].
    rewrite list_lookup_alter_eq. destruct (g !! Z.to_nat y'); simpl; [|done].
    rewrite list_lookup_insert_ne; [done|].
    apply Z.leb_le in Ex, Ex'. intros E. apply Hne. f_equal. lia.
  - by rewrite row_set_cell_ne.
Qed.

End Grid.

(** ** Reading back what a method wrote *)

Lemma int_min_val : int_min = -9223372036854775808.
Proof. reflexivity. Qed.

Lemma int_max_val : int_max = 9223372036854775807.
Proof. reflexivity. Qed.

Ltac int_lia :=
  unfold is_int, dims_ok, cursor_ok in *;
  rewrite ?int_min_val, ?int_max_val in *; lia.

Ltac int_simpl :=
  repeat first [ rewrite iadd_small by int_lia | rewrite isub_small by int_lia ].

Ltac zbool :=
  repeat match goal with
  | |- context [?a <=? ?b] =>
      first [ rewrite (proj2 (Z.leb_le a b)) by int_lia | rewrite (proj2 (Z.leb_gt a b)) by int_lia ]
  | |- context [?a <? ?b] =>
      first [ rewrite (proj2 (Z.ltb_lt a b)) by int_lia | rewrite (proj2 (Z.ltb_ge a b)) by int_lia ]
  | |- context [?a =? ?b] =>
      first [ rewrite (proj2 (Z.eqb_eq a b)) by int_lia | rewrite (proj2 (Z.eqb_neq a b)) by int_lia ]
  end.

Lemma buf_put_buf g m (s s' : NativeScreen) :
  valid (runes m) (buffer s) -> buffer s' = buffer s -> buf (put_buf g m s) s' = g.
Proof. intros V E. unfold buf, put_buf. rewrite E. simpl. by apply load_store_eq. Qed.

Lemma att_put_att g m (s s' : NativeScreen) :
  valid (styles m) (attrs s) -> attrs s' = attrs s -> att (put_att g m s) s' = g.
Proof. intros V E. unfold att, put_att. rewrite E. simpl. by apply load_store_eq. Qed.

Lemma buf_put_att g m (s s' : NativeScreen) : buf (put_att g m s) s' = buf m s'.
Proof. reflexivity. Qed.

Lemma att_put_buf g m (s s' : NativeScreen) : att (put_buf g m s) s' = att m s'.
Proof. reflexivity. Qed.

(** ** Drawing past the right edge with autowrap off *)

(** C9, as the code behaves: with autowrap off, in the live view (the screen
    is not viewing history) and with the cursor past the last column, a Draw
    of a printable character writes it into the last column of the current
    row on the base, history and alternate layers; on the wide-character
    layer it discards the character and leaves the screen as it was. *)
Theorem Draw_past_the_edge_without_autowrap
    (RuneWidth : rune -> Z) (ch : rune) (m : Mem) (w : WideCharScreen) :
  wf_native m w -> autoWrap w = false -> viewingHistory w = false ->
  columns w <= X (cursor w) -> 0 < RuneWidth ch <= 2 ->
  (let st := NativeScreen_Draw [ch] (m, native w) in
   cell 0 (buf (fst st) (snd st)) (Y (cursor w)) (columns w - 1) = ch) /\
  (let st := HistoryScreen_Draw [ch] (m, hist w) in
   cell 0 (buf (fst st) (snd st)) (Y (cursor w)) (columns w - 1) = ch) /\
  (let st := AlternateScreen_Draw [ch] (m, alt w) in
   cell 0 (buf (fst st) (snd st)) (Y (cursor w)) (columns w - 1) = ch) /\
  WideCharScreen_Draw RuneWidth [ch] (m, w) = (m, w).
Proof.
  intros W Ha Hv Hx Hw. destruct W as [D C Vb Va Vt Sb Sa].
  assert (Hrow : (Z.to_nat (columns w - 1) < length (row (buf m w) (Y (cursor w))))%nat).
  { rewrite (shaped_row _ _ _ _ Sb) by int_lia. int_lia. }
  split; [|split; [|split]].
  - cbv zeta. unfold NativeScreen_Draw, NativeScreen_Draw1. cbn [fold_left].
    rewrite Ha. zbool. int_simpl. cbn [moveX set_cursor cursor setX X Y lines columns]. zbool.
    cbn [andb fst snd]. rewrite buf_put_buf by done.
    apply cell_set_cell_eq; [int_lia..|done].
  - cbv zeta. unfold HistoryScreen_Draw, HistoryScreen_Draw1. rewrite Hv. cbn [fold_left].
    rewrite Ha. zbool. int_simpl.
    cbn [native set_native moveX set_cursor cursor setX X Y lines columns]. zbool.
    cbn [andb fst snd]. rewrite buf_put_att, buf_put_buf by done.
    apply cell_set_cell_eq; [int_lia..|done].
  - cbv zeta. unfold AlternateScreen_Draw. cbn [snd]. destruct (usingAlternate w).
    + unfold AlternateScreen_drawTextDirect, AlternateScreen_drawTextDirect1. cbn [fold_left].
      rewrite Ha. zbool. int_simpl.
      cbn [on_native hist set_hist native set_native moveX set_cursor cursor setX X Y lines columns]. zbool.
      cbn [andb fst snd]. rewrite buf_put_att, buf_put_buf by done.
      apply cell_set_cell_eq; [int_lia..|done].
    + unfold on_hist, HistoryScreen_Draw, HistoryScreen_Draw1. rewrite Hv. cbn [fold_left].
      rewrite Ha. zbool. int_simpl.
      cbn [native set_native moveX set_cursor cursor setX X Y lines columns]. zbool.
      cbn [andb fst snd hist set_hist]. rewrite buf_put_att, buf_put_buf by done.
      apply cell_set_cell_eq; [int_lia..|done].
  - unfold WideCharScreen_Draw. rewrite Hv, andb_false_r. cbn [fold_left].
    unfold WideCharScreen_drawChar. zbool. int_simpl. zbool. by rewrite Ha.
Qed.

(** Small closed facts are proved by unfolding the literals. *)
Ltac literal_valid := eexists; split; [reflexivity|simpl; lia].
Ltac literal_shaped :=
  split; [reflexivity|cbv; repeat (apply List.Forall_cons; [reflexivity|]); apply List.Forall_nil].
Ltac literal_bounds := cbv; repeat split; congruence.
Ltac literal_wf_native :=
  split; [literal_bounds|literal_bounds|literal_valid|literal_valid|literal_valid
         |literal_shaped|literal_shaped].

Lemma past_edge_wf : wf_native past_edge_mem past_edge_scr.
Proof. literal_wf_native. Qed.

(** The screen [past_edge_scr] is what the calls leave. *)
Lemma past_edge_reached :
  run (WideCharScreen_do sampleRuneWidth) [ResetMode [7] true; Draw [97; 98]]
    (NewWideCharScreen 2 1 10 emptyMem) = (past_edge_mem, past_edge_scr).
Proof. vm_compute. reflexivity. Qed.

Lemma Draw_past_the_edge_without_autowrap_witness :
  (let st := NativeScreen_Draw [99] (past_edge_mem, native past_edge_scr) in
   cell 0 (buf (fst st) (snd st)) (Y (cursor past_edge_scr)) (columns past_edge_scr - 1) = 99) /\
  (let st := HistoryScreen_Draw [99] (past_edge_mem, hist past_edge_scr) in
   cell 0 (buf (fst st) (snd st)) (Y (cursor past_edge_scr)) (columns past_edge_scr - 1) = 99) /\
  (let st := AlternateScreen_Draw [99] (past_edge_mem, alt past_edge_scr) in
   cell 0 (buf (fst st) (snd st)) (Y (cursor past_edge_scr)) (columns past_edge_scr - 1) = 99) /\
  WideCharScreen_Draw sampleRuneWidth [99] (past_edge_mem, past_edge_scr)
    = (past_edge_mem, past_edge_scr).
Proof.
  apply Draw_past_the_edge_without_autowrap.
  - exact past_edge_wf.
  - reflexivity.
  - reflexivity.
  - simpl. lia.
  - cbv. split; congruence.
Defined.

(** C9, as stated, fails in two ways.  On the wide-character layer: "c" is
    drawn on a 2 x 1 screen with autowrap off and the cursor past the edge,
    and the last column still holds 'b'.  In a history view, on the history
    layer: on a 2 x 2 screen with autowrap off, "cd" leaves the cursor past
    the edge of row 1, ScrollUp(1) and CursorUp(1) bring it to row 0 past
    the edge; Draw("e") then leaves the history view and writes 'e' at the
    end of row 1, the row of the restored cursor, and the last column of
    row 0 holds a space. *)
Lemma past_the_edge_is_not_always_overwritten :
  (let st := run (WideCharScreen_do sampleRuneWidth) [ResetMode [7] true; Draw [97; 98]]
               (NewWideCharScreen 2 1 10 emptyMem) in
   let st' := WideCharScreen_do sampleRuneWidth (Draw [99]) st in
   autoWrap (snd st) = false /\ columns (snd st) <= X (cursor (snd st)) /\
   cell 0 (buf (fst st') (snd st')) (Y (cursor (snd st))) (columns (snd st) - 1) <> 99) /\
  (let st := run (WideCharScreen_do sampleRuneWidth)
               [Draw [97]; Linefeed; Draw [98]; Linefeed; ResetMode [7] true; Draw [99; 100];
                ScrollUp 1; CursorUp 1]
               (NewWideCharScreen 2 2 10 emptyMem) in
   let st' := HistoryScreen_do (Draw [101]) (fst st, hist (snd st)) in
   autoWrap (snd st) = false /\ columns (snd st) <= X (cursor (snd st)) /\
   IsViewingHistory (snd st) = true /\ GetCursor (snd st) = (2, 0) /\
   cell 0 (buf (fst st') (snd st')) (Y (cursor (snd st))) (columns (snd st) - 1) = space /\
   cell 0 (buf (fst st') (snd st')) 1 1 = 101).
Proof. vm_compute. repeat split; congruence. Qed.

(** ** Case analysis on the tests of the code *)

Ltac case_bool b :=
  lazymatch b with
  | ?p && ?q => case_bool p
  | ?p || ?q => case_bool p
  | negb ?p => case_bool p
  | ?a <=? ?c => destruct (Z.leb_spec a c)
  | ?a <? ?c => destruct (Z.ltb_spec a c)
  | ?a =? ?c => destruct (Z.eqb_spec a c)
  | _ => destruct b eqn:?
  end.

Ltac zcase :=
  match goal with
  | |- context [if ?b then _ else _] => case_bool b
  end.

Ltac screen_simpl :=
  cbn [fst snd andb orb negb
       alt set_alt hist set_hist on_native native set_native set_historyPos set_viewingHistory
       set_savedBuffer set_savedAttrs set_savedCursor
       moveX moveY set_cursor set_buffer set_attrs
       cursor columns lines autoWrap newlineMode buffer attrs
       viewingHistory usingAlternate savedCursor savedBuffer savedAttrs
       setX setY setHidden X Y Attrs Hidden] in *.


Lemma fold_left_inv {S B} (P : S -> Prop) (f : S -> B -> S) (l : list B) (s : S) :
  P s -> (forall s b, P s -> P (f s b)) -> P (fold_left f l s).
Proof.
  intros H0 Hstep. revert s H0. induction l as [|b l IH]; intros s H0; simpl; [done|].
  apply IH. by apply Hstep.
Qed.

(** ** Scrolling into the history and back *)

Lemma for_range_ind_idx {S} (P : Z -> S -> Prop) lo hi (body : Z -> S -> S) (s : S) :
  lo <= hi -> P lo s -> (forall i s, lo <= i < hi -> P i s -> P (i + 1) (body i s)) ->
  P hi (for_range lo hi body s).
Proof.
  intros Hle H0 Hstep. unfold for_range.
  remember (Z.to_nat (hi - lo)) as n eqn:En.
  revert lo s Hle H0 Hstep En. induction n as [|n IH]; intros lo s Hle H0 Hstep En.
  - rewrite seqZ_nil by lia. simpl. by replace hi with lo by lia.
  - rewrite seqZ_cons by lia. simpl.
    replace (Z.pred (hi - lo)) with (hi - Z.succ lo) by lia.
    apply IH; try lia.
    + replace (Z.succ lo) with (lo + 1) by lia. apply Hstep; [lia|done].
    + intros i s' Hi. apply Hstep. lia.
Qed.

Lemma insert_take_replicate {B} (l : list B) (n i : nat) (x y : B) :
  l !! i = Some x -> (i < n)%nat ->
  <[i := x]> (take i l ++ replicate (n - i) y) = take (S i) l ++ replicate (n - S i) y.
Proof.
  intros Hl Hi.
  assert (Hlen : (i < length l)%nat) by (by eapply lookup_lt_Some).
  rewrite insert_app_r_alt by (rewrite length_take; lia).
  rewrite length_take, Nat.min_l, Nat.sub_diag by lia.
  replace (n - i)%nat with (S (n - S i)) by lia. simpl.
  rewrite (take_S_r _ _ _ Hl). by rewrite <- app_assoc.
Qed.

Lemma store_app_new {B} (h : list B) (v v' : B) :
  store (h ++ [v]) (Some (length h)) v' = h ++ [v'].
Proof.
  unfold store. rewrite insert_app_r_alt by lia. by rewrite Nat.sub_diag.
Qed.

Lemma length_make {B} (z : B) n : length (make z n) = Z.to_nat n.
Proof. apply length_replicate. Qed.

Lemma saveCurrentScreen_spec m (h : HistoryScreen) :
  wf_native m h ->
  HistoryScreen_saveCurrentScreen (m, h) =
    (mkMem (runes m ++ [buf m h]) (styles m ++ [att m h]) (widths m) (tabmaps m) (lists m),
     set_savedCursor (cursor h)
       (set_savedAttrs (Some (length (styles m)))
          (set_savedBuffer (Some (length (runes m))) h))).
Proof.
  intros [D C Vb Va Vt Sb Sa]. unfold HistoryScreen_saveCurrentScreen, new_runes, new_styles.
  cbn [set_runes set_styles runes styles widths tabmaps lists].
  set (h1 := set_savedAttrs _ _).
  f_equal.
  pose (P := fun (i : Z) (m' : Mem) =>
    m' = mkMem (runes m ++ [take (Z.to_nat i) (buf m h) ++ replicate (Z.to_nat (lines h) - Z.to_nat i) []])
               (styles m ++ [take (Z.to_nat i) (att m h) ++ replicate (Z.to_nat (lines h) - Z.to_nat i) []])
               (widths m) (tabmaps m) (lists m)).
  match goal with |- ?lhs = _ => assert (HP : P (lines h) lhs) end.
  { apply (for_range_ind_idx P 0 (lines h)).
    - unfold dims_ok in D; lia.
    - unfold P. simpl. rewrite Nat.sub_0_r. reflexivity.
    - intros i m' Hi ->. unfold P.
      cbn [h1 set_savedAttrs set_savedBuffer savedBuffer savedAttrs native columns
           set_runes set_styles runes styles widths tabmaps lists].
      unfold buf, att. cbn [runes styles].
      rewrite !(load_app_old _ _ (buffer h)) by done.
      rewrite !(load_app_old _ _ (attrs h)) by done. fold (buf m h) (att m h).
      rewrite !load_app_new, !store_app_new.
      rewrite !copy_same_length
        by (rewrite length_make; symmetry; first [by eapply shaped_row]).
      unfold set_row. rewrite (proj2 (Z.leb_le 0 i)) by lia.
      rewrite !insert_take_replicate; try lia;
        try (by eapply shaped_lookup).
      replace (Z.to_nat (i + 1)) with (S (Z.to_nat i)) by lia. reflexivity. }
  unfold P in HP. rewrite HP.
  rewrite (firstn_all2 (buf m h)) by (rewrite (shaped_length _ _ _ Sb); lia).
  rewrite (firstn_all2 (att m h)) by (rewrite (shaped_length _ _ _ Sa); lia).
  rewrite Nat.sub_diag. simpl. by rewrite !app_nil_r.
Qed.

Section MemBut.
Variables rb ra rw rt rh : loc.

Lemma mem_but_refl m : mem_but rb ra rw rt rh m m.
Proof. unfold mem_but. refine (conj _ (conj _ (conj _ (conj _ _)))); apply ext_but_refl. Qed.

Lemma mem_but_trans m m1 m2 :
  mem_but rb ra rw rt rh m m1 -> mem_but rb ra rw rt rh m1 m2 -> mem_but rb ra rw rt rh m m2.
Proof.
  intros (A1 & A2 & A3 & A4 & A5) (B1 & B2 & B3 & B4 & B5).
  unfold mem_but.
  refine (conj _ (conj _ (conj _ (conj _ _)))); (eapply ext_but_trans; [eassumption|apply same_or_fresh_refl|eassumption]).
Qed.

Lemma mem_but_set_runes m v :
  ext_but rb (runes m) v -> mem_but rb ra rw rt rh m (set_runes v m).
Proof. intros H. unfold mem_but. refine (conj _ (conj _ (conj _ (conj _ _)))); first [exact H|apply ext_but_refl]. Qed.

Lemma mem_but_set_styles m v :
  ext_but ra (styles m) v -> mem_but rb ra rw rt rh m (set_styles v m).
Proof. intros H. unfold mem_but. refine (conj _ (conj _ (conj _ (conj _ _)))); first [exact H|apply ext_but_refl]. Qed.

Lemma mem_but_set_widths m v :
  ext_but rw (widths m) v -> mem_but rb ra rw rt rh m (set_widths v m).
Proof. intros H. unfold mem_but. refine (conj _ (conj _ (conj _ (conj _ _)))); first [exact H|apply ext_but_refl]. Qed.

Lemma mem_but_set_tabmaps m v :
  ext_but rt (tabmaps m) v -> mem_but rb ra rw rt rh m (set_tabmaps v m).
Proof. intros H. unfold mem_but. refine (conj _ (conj _ (conj _ (conj _ _)))); first [exact H|apply ext_but_refl]. Qed.

Lemma mem_but_set_lists m v :
  ext_but rh (lists m) v -> mem_but rb ra rw rt rh m (set_lists v m).
Proof. intros H. unfold mem_but. refine (conj _ (conj _ (conj _ (conj _ _)))); first [exact H|apply ext_but_refl]. Qed.

End MemBut.

Lemma mem_but_put_buf ra rw rt rh g m (s : NativeScreen) :
  mem_but (buffer s) ra rw rt rh m (put_buf g m s).
Proof. apply mem_but_set_runes, ext_but_store. Qed.

Lemma mem_but_put_att rb rw rt rh g m (s : NativeScreen) :
  mem_but rb (attrs s) rw rt rh m (put_att g m s).
Proof. apply mem_but_set_styles, ext_but_store. Qed.

Lemma mem_but_put_tabs rb ra rw rh t m (s : NativeScreen) :
  mem_but rb ra rw (tabStops s) rh m (put_tabs t m s).
Proof. apply mem_but_set_tabmaps, ext_but_store. Qed.

Lemma mem_but_put_hist rb ra rw rt l m (h : HistoryScreen) :
  mem_but rb ra rw rt (history h) m (put_hist l m h).
Proof. apply mem_but_set_lists, ext_but_store. Qed.

Lemma fill_from_history_but rw rt rh hs (h : HistoryScreen) lineIdx m :
  mem_but (buffer h) (attrs h) rw rt rh m (snd (fill_from_history hs h lineIdx m)).
Proof.
  revert lineIdx m. induction hs as [|hl hs IH]; intros lineIdx m; simpl.
  - apply mem_but_refl.
  - destruct (lineIdx <? lines h); [|apply mem_but_refl].
    eapply mem_but_trans; [|apply IH].
    eapply mem_but_trans; [apply mem_but_put_buf|apply mem_but_put_att].
Qed.

Lemma fill_from_saved_but rw rt rh idx (h : HistoryScreen) lineIdx m :
  mem_but (buffer h) (attrs h) rw rt rh m (snd (fill_from_saved idx h lineIdx m)).
Proof.
  revert lineIdx m. induction idx as [|i idx IH]; intros lineIdx m; simpl.
  - apply mem_but_refl.
  - destruct (lineIdx <? lines h); [|apply mem_but_refl].
    eapply mem_but_trans; [|apply IH].
    eapply mem_but_trans; [apply mem_but_put_buf|apply mem_but_put_att].
Qed.

Lemma renderHistoryView_snd m (h : HistoryScreen) :
  snd (HistoryScreen_renderHistoryView (m, h)) = hide h.
Proof.
  unfold HistoryScreen_renderHistoryView.
  destruct (fill_from_history _ _ _ _). reflexivity.
Qed.

Lemma renderHistoryView_but rw rt rh m (h : HistoryScreen) :
  mem_but (buffer h) (attrs h) rw rt rh m (fst (HistoryScreen_renderHistoryView (m, h))).
Proof.
  unfold HistoryScreen_renderHistoryView.
  match goal with |- context [fill_from_history ?hs h 0 ?m1] =>
    pose proof (fill_from_history_but rw rt rh hs h 0 m1) as HF;
    destruct (fill_from_history hs h 0 m1) as [lineIdx m2] end.
  cbn [fst snd] in *.
  eapply mem_but_trans; [|eapply mem_but_trans; [exact HF|]].
  - eapply mem_but_trans; [apply mem_but_put_buf|apply mem_but_put_att].
  - destruct (_ && _); [apply fill_from_saved_but|apply mem_but_refl].
Qed.

Lemma ScrollUp_nothing m (h : HistoryScreen) n :
  wf_native m h -> live h -> n <= 0 \/ hist_lines m h = [] ->
  HistoryScreen_ScrollUp n (m, h) = (saved_mem m h, saved_scr m h).
Proof.
  intros W [Hv Hp] Hn. unfold HistoryScreen_ScrollUp. rewrite Hv.
  rewrite (saveCurrentScreen_spec m h W).
  cbn [set_viewingHistory historyPos set_savedCursor set_savedAttrs set_savedBuffer].
  rewrite Hp. fold (saved_mem m h) (saved_scr m h).
  change (history_Len (saved_mem m h) _) with (history_Len m h).
  assert (E : ((if isub (history_Len m h) 0 <? n then isub (history_Len m h) 0 else n) <=? 0) = true).
  { destruct Hn as [Hn|Hn].
    - destruct (Z.ltb_spec (isub (history_Len m h) 0) n); apply Z.leb_le; lia.
    - unfold history_Len. rewrite Hn. change (isub (Z.of_nat (length [])) 0) with 0.
      destruct (Z.ltb_spec 0 n); apply Z.leb_le; lia. }
  rewrite E. reflexivity.
Qed.

Lemma ScrollUp_render m (h : HistoryScreen) n :
  wf_native m h -> live h -> 1 <= n <= history_Len m h -> history_Len m h <= int_max ->
  HistoryScreen_ScrollUp n (m, h) =
  HistoryScreen_renderHistoryView (saved_mem m h, set_historyPos n (saved_scr m h)).
Proof.
  intros W [Hv Hp] Hn Hmax. unfold HistoryScreen_ScrollUp. rewrite Hv.
  rewrite (saveCurrentScreen_spec m h W).
  cbn [set_viewingHistory historyPos set_savedCursor set_savedAttrs set_savedBuffer].
  rewrite Hp. fold (saved_mem m h) (saved_scr m h).
  change (history_Len (saved_mem m h) _) with (history_Len m h).
  assert (0 <= history_Len m h) by (unfold history_Len; lia).
  int_simpl. rewrite Z.sub_0_r. zbool. int_simpl. reflexivity.
Qed.

Lemma buf_saved_mem m (h : HistoryScreen) (s : NativeScreen) :
  valid (runes m) (buffer s) -> buf (saved_mem m h) s = buf m s.
Proof. intros V. unfold buf, saved_mem. simpl. by apply load_app_old. Qed.

Lemma att_saved_mem m (h : HistoryScreen) (s : NativeScreen) :
  valid (styles m) (attrs s) -> att (saved_mem m h) s = att m s.
Proof. intros V. unfold att, saved_mem. simpl. by apply load_app_old. Qed.

Lemma valid_not_nil {B} (h : list B) r : valid h r -> r <> nil.
Proof. by intros (i & -> & _). Qed.

Lemma wf_history_Len m (h : HistoryScreen) :
  wf_history m h -> 0 <= history_Len m h <= int_max.
Proof.
  intros [[D _ _ _ _ _ _] _ Hm Hl _]. unfold dims_ok in D.
  split; [unfold history_Len; lia|lia].
Qed.

(** After a scroll into the history by [n] lines, the saved objects hold
    the live grid, and a scroll back by [n] lines makes them the visible
    grid again. *)
Lemma ScrollUp_ScrollDown m (h : HistoryScreen) n :
  wf_history m h -> live h -> 0 <= n <= history_Len m h ->
  let st1 := HistoryScreen_ScrollUp n (m, h) in
  let st2 := HistoryScreen_ScrollDown n st1 in
  (viewingHistory (snd st1) = true /\
   historyPos (snd st1) = n /\
   savedBuffer (snd st1) <> nil /\
   load [] (runes (fst st1)) (savedBuffer (snd st1)) = buf m h /\
   load [] (styles (fst st1)) (savedAttrs (snd st1)) = att m h /\
   savedCursor (snd st1) = cursor h /\
   hist_lines (fst st1) (snd st1) = hist_lines m h) /\
  (buf (fst st2) (snd st2) = buf m h /\
   att (fst st2) (snd st2) = att m h /\
   cursor (snd st2) = setHidden false (cursor h) /\
   viewingHistory (snd st2) = false /\
   historyPos (snd st2) = 0 /\
   hist_lines (fst st2) (snd st2) = hist_lines m h).
Proof.
  intros WH L Hn. pose proof (wf_history_Len m h WH) as [_ Hmax].
  pose proof WH as [W Vh _ _ _]. pose proof W as [D C Vb Va Vt Sb Sa].
  assert (Hsb : load [] (runes (saved_mem m h)) (Some (length (runes m))) = buf m h)
    by apply load_app_new.
  assert (Hsa : load [] (styles (saved_mem m h)) (Some (length (styles m))) = att m h)
    by apply load_app_new.
  destruct (decide (n = 0)) as [->|Hn0].
  - cbv zeta. rewrite ScrollUp_nothing by (first [done|by left]).
    unfold HistoryScreen_ScrollDown.
    cbn [fst snd saved_scr viewingHistory set_viewingHistory set_historyPos historyPos
         set_savedCursor set_savedAttrs set_savedBuffer savedBuffer savedAttrs savedCursor].
    destruct L as [_ ->]. change (isub 0 0) with 0. cbn [Z.leb Z.compare].
    unfold HistoryScreen_restoreCurrentScreen.
    cbn [fst snd saved_scr viewingHistory set_viewingHistory set_historyPos historyPos
         set_savedCursor set_savedAttrs set_savedBuffer savedBuffer savedAttrs savedCursor
         native set_native set_buffer set_attrs set_cursor cursor buffer attrs].
    repeat split; try done.
  - cbv zeta. rewrite ScrollUp_render by (first [done|lia]).
    set (st := (saved_mem m h, set_historyPos n (saved_scr m h))).
    pose proof (renderHistoryView_snd (fst st) (snd st)) as E2.
    pose proof (renderHistoryView_but nil nil nil (fst st) (snd st)) as (Br & Bs & _ & _ & Bl).
    change (fst st, snd st) with st in *.
    destruct (HistoryScreen_renderHistoryView st) as [m2 h2].
    cbn [fst snd] in *. subst h2. subst st. cbn [fst snd] in *.
    assert (Vsb : valid (runes (saved_mem m h)) (Some (length (runes m)))) by apply valid_new.
    assert (Vsa : valid (styles (saved_mem m h)) (Some (length (styles m)))) by apply valid_new.
    assert (Nb : Some (length (runes m)) <> buffer h) by (symmetry; by apply valid_not_new).
    assert (Na : Some (length (styles m)) <> attrs h) by (symmetry; by apply valid_not_new).
    assert (Hl : load [] (lists m2) (history h) = hist_lines m h).
    { rewrite (ext_but_load [] _ _ _ _ Bl); [done|done|by eapply valid_not_nil]. }
    assert (Hb : load [] (runes m2) (Some (length (runes m))) = buf m h).
    { rewrite (ext_but_load [] _ _ _ _ Br); done. }
    assert (Ha : load [] (styles m2) (Some (length (styles m))) = att m h).
    { rewrite (ext_but_load [] _ _ _ _ Bs); done. }
    unfold HistoryScreen_ScrollDown.
    cbn [fst snd hide saved_scr viewingHistory set_viewingHistory set_historyPos historyPos
         set_savedCursor set_savedAttrs set_savedBuffer savedBuffer savedAttrs savedCursor
         native set_native set_buffer set_attrs set_cursor cursor buffer attrs].
    int_simpl. rewrite Z.sub_diag. cbn [Z.leb Z.compare].
    unfold HistoryScreen_restoreCurrentScreen.
    cbn [fst snd hide saved_scr viewingHistory set_viewingHistory set_historyPos historyPos
         set_savedCursor set_savedAttrs set_savedBuffer savedBuffer savedAttrs savedCursor
         native set_native set_buffer set_attrs set_cursor cursor buffer attrs].
    repeat split; try done.
Qed.

(** On the main screen the scroll calls of the top layer are those of the
    history layer. *)
Lemma WideCharScreen_do_ScrollUp RuneWidth n m (w : WideCharScreen) :
  usingAlternate w = false ->
  WideCharScreen_do RuneWidth (ScrollUp n) (m, w) =
  (fst (HistoryScreen_ScrollUp n (m, hist w)),
   set_alt (set_hist (snd (HistoryScreen_ScrollUp n (m, hist w))) w) w).
Proof.
  intros Ha. unfold WideCharScreen_do, on_alt, AlternateScreen_do, AlternateScreen_ScrollUp.
  cbn [snd]. rewrite Ha. unfold on_hist.
  by destruct (HistoryScreen_ScrollUp n (m, hist w)).
Qed.

Lemma WideCharScreen_do_ScrollDown RuneWidth n m (w : WideCharScreen) :
  usingAlternate w = false ->
  WideCharScreen_do RuneWidth (ScrollDown n) (m, w) =
  (fst (HistoryScreen_ScrollDown n (m, hist w)),
   set_alt (set_hist (snd (HistoryScreen_ScrollDown n (m, hist w))) w) w).
Proof.
  intros Ha. unfold WideCharScreen_do, on_alt, AlternateScreen_do, AlternateScreen_ScrollDown.
  cbn [snd]. rewrite Ha. unfold on_hist.
  by destruct (HistoryScreen_ScrollDown n (m, hist w)).
Qed.


(** C10: a ScrollUp from the live view of the main screen with nothing to
    scroll ([n <= 0], or an empty history) leaves the visible grid and the
    cursor, its hidden flag included, as they were, and yet enters the
    history view: IsViewingHistory answers true and a snapshot of the live
    screen is saved.  The snapshot is a copy: the saved grids are objects
    the store did not hold before the call, other than the live grids
    (which the screen keeps), they hold the live characters and attributes,
    and whatever is later written through the live grids leaves them as
    they are; the saved cursor is the live cursor. *)
Theorem ScrollUp_with_nothing_to_scroll
    (RuneWidth : rune -> Z) (n : Z) (m : Mem) (w : WideCharScreen) :
  wf_native m w -> usingAlternate w = false -> live w ->
  n <= 0 \/ hist_lines m w = [] ->
  let st := WideCharScreen_do RuneWidth (ScrollUp n) (m, w) in
  buf (fst st) (snd st) = buf m w /\
  att (fst st) (snd st) = att m w /\
  cursor (snd st) = cursor w /\
  IsViewingHistory (snd st) = true /\
  savedBuffer (snd st) <> nil /\
  load [] (runes (fst st)) (savedBuffer (snd st)) = buf m w /\
  load [] (styles (fst st)) (savedAttrs (snd st)) = att m w /\
  savedCursor (snd st) = cursor w /\
  (buffer (snd st) = buffer w /\ attrs (snd st) = attrs w) /\
  (valid (runes (fst st)) (savedBuffer (snd st)) /\
   ~ valid (runes m) (savedBuffer (snd st)) /\
   savedBuffer (snd st) <> buffer (snd st)) /\
  (valid (styles (fst st)) (savedAttrs (snd st)) /\
   ~ valid (styles m) (savedAttrs (snd st)) /\
   savedAttrs (snd st) <> attrs (snd st)) /\
  (forall g, load [] (store (runes (fst st)) (buffer (snd st)) g) (savedBuffer (snd st)) =
             buf m w) /\
  (forall g, load [] (store (styles (fst st)) (attrs (snd st)) g) (savedAttrs (snd st)) =
             att m w).
Proof.
  intros W Ha L Hn. pose proof W as [D C Vb Va Vt Sb Sa]. cbv zeta.
  rewrite WideCharScreen_do_ScrollUp by done.
  rewrite ScrollUp_nothing by done.
  cbn [fst snd alt set_alt hist set_hist]. unfold IsViewingHistory.
  cbn [alt set_alt hist set_hist].
  assert (Nb : Some (length (runes m)) <> buffer w) by (symmetry; by apply valid_not_new).
  assert (Na : Some (length (styles m)) <> attrs w) by (symmetry; by apply valid_not_new).
  assert (Fb : ~ valid (runes m) (Some (length (runes m)))).
  { intros (i & [= <-] & Hi). lia. }
  assert (Fa : ~ valid (styles m) (Some (length (styles m)))).
  { intros (i & [= <-] & Hi). lia. }
  split; [by apply buf_saved_mem|]. split; [by apply att_saved_mem|].
  split; [reflexivity|]. split; [reflexivity|]. split; [discriminate|].
  split; [apply load_app_new|]. split; [apply load_app_new|].
  split; [reflexivity|]. split; [split; reflexivity|].
  split; [split; [apply valid_new|by split]|].
  split; [split; [apply valid_new|by split]|].
  split; intros g.
  - rewrite load_store_ne by (by apply not_eq_sym). apply load_app_new.
  - rewrite load_store_ne by (by apply not_eq_sym). apply load_app_new.
Qed.

Ltac literal_wf_history :=
  split; [literal_wf_native|literal_valid|literal_bounds|literal_bounds|literal_bounds].

Lemma abc_wf : wf_history abc_mem abc_scr.
Proof. literal_wf_history. Qed.

(** The screen [abc_scr] is what the calls leave. *)
Lemma abc_reached :
  run (WideCharScreen_do sampleRuneWidth)
    [Draw [97]; Linefeed; Draw [98]; Linefeed; Draw [99]]
    (NewWideCharScreen 2 2 10 emptyMem) = (abc_mem, abc_scr).
Proof. vm_compute. reflexivity. Qed.

Lemma ScrollUp_with_nothing_to_scroll_witness :
  let st := WideCharScreen_do sampleRuneWidth (ScrollUp 0) (abc_mem, abc_scr) in
  buf (fst st) (snd st) = buf abc_mem abc_scr /\
  att (fst st) (snd st) = att abc_mem abc_scr /\
  cursor (snd st) = cursor abc_scr /\
  IsViewingHistory (snd st) = true /\
  savedBuffer (snd st) <> nil /\
  load [] (runes (fst st)) (savedBuffer (snd st)) = buf abc_mem abc_scr /\
  load [] (styles (fst st)) (savedAttrs (snd st)) = att abc_mem abc_scr /\
  savedCursor (snd st) = cursor abc_scr /\
  (buffer (snd st) = buffer abc_scr /\ attrs (snd st) = attrs abc_scr) /\
  (valid (runes (fst st)) (savedBuffer (snd st)) /\
   ~ valid (runes abc_mem) (savedBuffer (snd st)) /\
   savedBuffer (snd st) <> buffer (snd st)) /\
  (valid (styles (fst st)) (savedAttrs (snd st)) /\
   ~ valid (styles abc_mem) (savedAttrs (snd st)) /\
   savedAttrs (snd st) <> attrs (snd st)) /\
  (forall g, load [] (store (runes (fst st)) (buffer (snd st)) g) (savedBuffer (snd st)) =
             buf abc_mem abc_scr) /\
  (forall g, load [] (store (styles (fst st)) (attrs (snd st)) g) (savedAttrs (snd st)) =
             att abc_mem abc_scr).
Proof.
  apply ScrollUp_with_nothing_to_scroll.
  - apply abc_wf.
  - reflexivity.
  - split; reflexivity.
  - left. lia.
Defined.

(** C5: from the live view of the main screen with at least [n >= 1] lines
    of history, ScrollUp(n) then ScrollDown(n) gives back the visible grid
    and the cursor position and attributes of before, with the cursor
    unhidden and the history view left; the history is as before. *)
Theorem ScrollUp_then_ScrollDown_restores
    (RuneWidth : rune -> Z) (n : Z) (m : Mem) (w : WideCharScreen) :
  wf_history m w -> usingAlternate w = false -> live w ->
  1 <= n <= history_Len m w ->
  let st := run (WideCharScreen_do RuneWidth) [ScrollUp n; ScrollDown n] (m, w) in
  buf (fst st) (snd st) = buf m w /\
  att (fst st) (snd st) = att m w /\
  GetCursor (snd st) = GetCursor w /\
  Attrs (cursor (snd st)) = Attrs (cursor w) /\
  Hidden (cursor (snd st)) = false /\
  IsViewingHistory (snd st) = false /\
  hist_lines (fst st) (snd st) = hist_lines m w.
Proof.
  intros W Ha L Hn. cbv zeta. unfold run. cbn [fold_left].
  rewrite WideCharScreen_do_ScrollUp by done.
  rewrite WideCharScreen_do_ScrollDown by done.
  cbn [alt set_alt hist set_hist].
  destruct (ScrollUp_ScrollDown m w n W L) as (_ & Hb & Hs & Hc & Hv & _ & Hh); [lia|].
  rewrite <- !surjective_pairing.
  cbn [fst snd alt set_alt hist set_hist]. unfold GetCursor, IsViewingHistory.
  cbn [alt set_alt hist set_hist].
  rewrite Hc. by repeat split.
Qed.

Lemma ScrollUp_then_ScrollDown_restores_witness :
  let st := run (WideCharScreen_do sampleRuneWidth) [ScrollUp 1; ScrollDown 1] (abc_mem, abc_scr) in
  buf (fst st) (snd st) = buf abc_mem abc_scr /\
  att (fst st) (snd st) = att abc_mem abc_scr /\
  GetCursor (snd st) = GetCursor abc_scr /\
  Attrs (cursor (snd st)) = Attrs (cursor abc_scr) /\
  Hidden (cursor (snd st)) = false /\
  IsViewingHistory (snd st) = false /\
  hist_lines (fst st) (snd st) = hist_lines abc_mem abc_scr.
Proof.
  apply ScrollUp_then_ScrollDown_restores.
  - apply abc_wf.
  - reflexivity.
  - split; reflexivity.
  - cbv. split; congruence.
Defined.

(** ** Scrolling down first *)





(** ** Where the cursor rests between operations *)

(** The first element of a run of integers that satisfies a test. *)
Lemma find_seqZ_Some (f : Z -> bool) lo n x :
  find f (seqZ lo n) = Some x ->
  lo <= x < lo + n /\ f x = true /\ forall t, lo <= t < x -> f t = false.
Proof.
  remember (Z.to_nat n) as k eqn:Ek. revert lo n Ek.
  induction k as [|k IH]; intros lo n Ek.
  - rewrite seqZ_nil by lia. discriminate.
  - rewrite seqZ_cons by lia. simpl. destruct (f lo) eqn:E.
    + intros [= <-]. split; [lia|]. split; [done|]. intros; lia.
    + intros H. apply IH in H as (H1 & H2 & H3); [|lia].
      split; [lia|]. split; [done|]. intros t Ht.
      destruct (decide (t = lo)) as [->|]; [done|]. apply H3. lia.
Qed.

Ltac inv_simpl :=
  cbn [fst snd andb orb negb
       alt set_alt hist set_hist on_native native set_native set_history set_historyPos
       set_viewingHistory set_savedBuffer set_savedAttrs set_savedCursor
       set_mainCursor set_altCursor set_altTabStops
       moveX moveY set_cursor set_buffer set_attrs set_saved set_title set_iconName
       set_autoWrap set_newlineMode set_tabStops
       cursor columns lines autoWrap newlineMode buffer attrs saved tabStops
       history maxHistory historyPos viewingHistory savedCursor savedBuffer savedAttrs
       usingAlternate mainCursor altCursor mainBuffer mainAttrs mainTabStops mainHistory
       altBuffer altAttrs altTabStops
       setX setY setAttrs setHidden X Y Attrs Hidden zeroCursor] in *.

Section Inv.
Variables c l : Z.
Hypothesis Hc : 0 < c.
Hypothesis Hl : 0 < l.
Hypothesis Hc' : c + 2 <= int_max.
Hypothesis Hl' : l + 2 <= int_max.

Ltac inv_split :=
  unfold alternate_rests, history_rests, native_rests, on_grid in *; inv_simpl;
  repeat match goal with H : _ /\ _ |- _ => destruct H end;
  repeat match goal with
  | |- _ /\ _ => split
  | |- forall _, _ => intro
  end;
  repeat match goal with
  | H : forall k, ?f = Some k -> _, H' : ?f = Some ?k |- _ => pose proof (H _ H'); clear H'
  end;
  try done; try lia; try int_lia.

Ltac inv_pre :=
  unfold alternate_rests, history_rests, native_rests, on_grid in *;
  repeat match goal with H : _ /\ _ |- _ => destruct H end.

Ltac inv_cases :=
  repeat (inv_simpl; int_simpl; zcase); inv_simpl; int_simpl; inv_split.

Lemma NativeScreen_Draw1_inv ch m (s : NativeScreen) :
  native_rests c l s -> native_rests c l (snd (NativeScreen_Draw1 ch (m, s))).
Proof.
  intros (Ec & El & (Hx & Hy) & Hs). unfold NativeScreen_Draw1. inv_cases.
Qed.

Lemma clamp_range n v : 0 < n -> n <= int_max -> 0 <= clamp n v <= n - 1.
Proof.
  intros H1 H2. unfold clamp. repeat zcase; int_simpl; lia.
Qed.

Lemma NativeScreen_do_inv op m (s : NativeScreen) :
  native_rests c l s -> count_ok c l op ->
  native_rests c l (snd (NativeScreen_do op (m, s))).
Proof.
  intros (Ec & El & (Hx & Hy) & Hs) Hop.
  destruct op; cbn [NativeScreen_do count_ok] in *.
  all: try (inv_cases; fail).

  all: try (unfold NativeScreen_Backspace, NativeScreen_CarriageReturn, NativeScreen_CursorUp,
    NativeScreen_CursorDown, NativeScreen_CursorForward, NativeScreen_CursorBack,
    NativeScreen_CursorUp1, NativeScreen_CursorDown1, NativeScreen_SaveCursor,
    NativeScreen_SetTitle, NativeScreen_SetIconName, NativeScreen_SelectGraphicRendition,
    NativeScreen_Linefeed, NativeScreen_Index, NativeScreen_ReverseIndex, NativeScreen_Reset,
    NativeScreen_ClearTabStop, new_tabmap;
    inv_cases; fail).
  - apply (fold_left_inv (fun st : Mem * NativeScreen => native_rests c l (snd st))).
    + inv_split.
    + intros [m' s'] ch H. by apply NativeScreen_Draw1_inv.
  - unfold NativeScreen_Tab. destruct (find _ _) as [x|] eqn:E.
    + apply find_seqZ_Some in E as (H1 & _ & _). revert H1. int_simpl. intros H1. inv_cases.
    + inv_cases.
  - unfold NativeScreen_CursorPosition. inv_simpl.
    pose proof (clamp_range (lines s) (isub line 1)).
    pose proof (clamp_range (columns s) (isub column 1)). inv_split.
  - unfold NativeScreen_CursorToColumn.
    pose proof (clamp_range (columns s) (isub column 1)). inv_split.
  - unfold NativeScreen_CursorToLine.
    pose proof (clamp_range (lines s) (isub line 1)). inv_split.
  - unfold NativeScreen_SaveCursor. inv_simpl. unfold native_rests. inv_simpl.
    refine (conj _ (conj _ (conj _ _))); try done. intros k [= <-]. done.
  - unfold NativeScreen_RestoreCursor.
    assert (A : forall k, saved s = Some k -> native_rests c l (set_cursor k s)).
    { intros k Hk. pose proof (Hs k Hk). inv_split. }
    assert (B : native_rests c l s) by inv_split.
    cbn [snd]. destruct (saved s); [by apply A|exact B].
  - unfold NativeScreen_SetMode.
    apply (fold_left_inv (native_rests c l)); [inv_split|].
    intros s' mode H. destruct private; zcase; inv_split.
  - unfold NativeScreen_ResetMode.
    apply (fold_left_inv (native_rests c l)); [inv_split|].
    intros s' mode H. destruct private; zcase; inv_split.
  - unfold NativeScreen_SelectGraphicRendition.
    destruct params as [|p [|q r]]; [inv_split|destruct p; inv_split|destruct p; inv_split].
Qed.

Lemma history_rests_set_native (h : HistoryScreen) (s : NativeScreen) :
  native_rests c l s -> on_grid c l (savedCursor h) -> history_rests c l (set_native s h).
Proof. intros H1 H2. by split. Qed.

Lemma saveCurrentScreen_snd m (h : HistoryScreen) :
  snd (HistoryScreen_saveCurrentScreen (m, h)) =
  set_savedCursor (cursor h)
    (set_savedAttrs (Some (length (styles m))) (set_savedBuffer (Some (length (runes m))) h)).
Proof. reflexivity. Qed.

Lemma HistoryScreen_restoreCurrentScreen_inv (h : HistoryScreen) :
  history_rests c l h -> history_rests c l (HistoryScreen_restoreCurrentScreen h).
Proof.
  intros H. unfold HistoryScreen_restoreCurrentScreen. destruct (savedBuffer h); inv_split.
Qed.

Lemma HistoryScreen_ScrollToBottom_inv (h : HistoryScreen) :
  history_rests c l h -> history_rests c l (HistoryScreen_ScrollToBottom h).
Proof.
  intros H. unfold HistoryScreen_ScrollToBottom. destruct (viewingHistory h); [|done].
  assert (A : history_rests c l (set_historyPos 0 h)) by inv_split.
  apply HistoryScreen_restoreCurrentScreen_inv in A. revert A.
  generalize (HistoryScreen_restoreCurrentScreen (set_historyPos 0 h)). intros h' A. inv_split.
Qed.

Lemma HistoryScreen_Draw1_inv ch m (h : HistoryScreen) :
  history_rests c l h -> history_rests c l (snd (HistoryScreen_Draw1 ch (m, h))).
Proof.
  intros H. unfold HistoryScreen_Draw1. inv_pre. inv_cases.
Qed.

Lemma hide_inv (h : HistoryScreen) : history_rests c l h -> history_rests c l (hide h).
Proof. intros H. unfold hide. inv_split. Qed.

Lemma HistoryScreen_do_inv op m (h : HistoryScreen) :
  history_rests c l h -> count_ok c l op ->
  history_rests c l (snd (HistoryScreen_do op (m, h))).
Proof.
  intros H Hop.
  assert (N : native_rests c l (snd (NativeScreen_do op (m, native h)))).
  { apply NativeScreen_do_inv; [apply H|done]. }
  assert (D : history_rests c l (snd (let '(m', s) := NativeScreen_do op (m, native h) in
                                    (m', set_native s h)))).
  { destruct (NativeScreen_do op (m, native h)) as [m' s']. apply history_rests_set_native; [done|apply H]. }
  destruct op; cbn [HistoryScreen_do]; try exact D; clear N D.
  - unfold HistoryScreen_Draw.
    apply (fold_left_inv (fun st : Mem * HistoryScreen => history_rests c l (snd st))).
    + cbn [snd]. destruct (viewingHistory h); [by apply HistoryScreen_ScrollToBottom_inv|done].
    + intros [m' h'] ch H'. by apply HistoryScreen_Draw1_inv.
  - unfold HistoryScreen_Linefeed. inv_pre. inv_cases.
  - unfold HistoryScreen_Index. inv_pre. inv_cases.
  - unfold HistoryScreen_EraseInDisplay.
    assert (A : history_rests c l (if viewingHistory h then HistoryScreen_ScrollToBottom h else h)).
    { destruct (viewingHistory h); [by apply HistoryScreen_ScrollToBottom_inv|done]. }
    revert A. generalize (if viewingHistory h then HistoryScreen_ScrollToBottom h else h).
    intros h' A. destruct ((how =? 2) || (how =? 3)); inv_split.
  - unfold HistoryScreen_ScrollUp.
    assert (A : history_rests c l
              (snd (if viewingHistory h then (m, h)
                    else let '(m, h) := HistoryScreen_saveCurrentScreen (m, h) in
                         (m, set_viewingHistory true h)))).
    { destruct (viewingHistory h); [done|].
      pose proof (saveCurrentScreen_snd m h) as E.
      destruct (HistoryScreen_saveCurrentScreen (m, h)) as [m' h']. cbn [snd] in *. subst h'.
      inv_split. }
    destruct (if viewingHistory h then _ else _) as [m' h']. cbn [snd] in A.
    zcase; [done|]. rewrite renderHistoryView_snd. apply hide_inv. inv_split.
  - unfold HistoryScreen_ScrollDown. destruct (viewingHistory h); [|done].
    zcase.
    + cbn [snd].
      assert (A : history_rests c l (set_historyPos 0 (set_historyPos (isub (historyPos h) n) h))) by inv_split.
      apply HistoryScreen_restoreCurrentScreen_inv in A. revert A.
      generalize (HistoryScreen_restoreCurrentScreen (set_historyPos 0 (set_historyPos (isub (historyPos h) n) h))).
      intros h' A. inv_split.
    + rewrite renderHistoryView_snd. apply hide_inv. inv_split.
  - by apply HistoryScreen_ScrollToBottom_inv.
Qed.

Lemma alternate_rests_set_hist (a : AlternateScreen) (h : HistoryScreen) :
  history_rests c l h -> on_grid c l (mainCursor a) -> on_grid c l (altCursor a) ->
  alternate_rests c l (set_hist h a).
Proof. intros H1 H2 H3. by split. Qed.

Lemma AlternateScreen_switchToMain_inv (a : AlternateScreen) :
  alternate_rests c l a -> alternate_rests c l (AlternateScreen_switchToMain a).
Proof.
  intros H. unfold AlternateScreen_switchToMain. destruct (usingAlternate a); inv_split.
Qed.

Lemma AlternateScreen_switchToAlternate_inv m (a : AlternateScreen) :
  alternate_rests c l a -> alternate_rests c l (snd (AlternateScreen_switchToAlternate (m, a))).
Proof.
  intros H. unfold AlternateScreen_switchToAlternate, new_list. inv_simpl.
  destruct (viewingHistory a); inv_split.
Qed.

Lemma AlternateScreen_drawTextDirect1_inv ch m (a : AlternateScreen) :
  alternate_rests c l a -> alternate_rests c l (snd (AlternateScreen_drawTextDirect1 ch (m, a))).
Proof.
  intros H. unfold AlternateScreen_drawTextDirect1. inv_pre. inv_cases.
Qed.

Lemma on_native_rests f (a : AlternateScreen) :
  alternate_rests c l a -> native_rests c l (f (native a)) -> alternate_rests c l (on_native f a).
Proof.
  intros H1 H2. unfold on_native.
  split; [split; [exact H2|apply H1]|split; apply H1].
Qed.

Lemma on_hist_inv f m (a : AlternateScreen) :
  alternate_rests c l a -> history_rests c l (snd (f (m, hist a))) ->
  alternate_rests c l (snd (on_hist f (m, a))).
Proof.
  intros H Hf. unfold on_hist. destruct (f (m, hist a)) as [m' h'].
  apply alternate_rests_set_hist; [done|apply H..].
Qed.

Lemma AlternateScreen_do_inv op m (a : AlternateScreen) :
  alternate_rests c l a -> count_ok c l op ->
  alternate_rests c l (snd (AlternateScreen_do op (m, a))).
Proof.
  intros H Hop.
  assert (D : alternate_rests c l (snd (on_hist (HistoryScreen_do op) (m, a)))).
  { apply on_hist_inv; [done|]. apply HistoryScreen_do_inv; [apply H|done]. }
  destruct op; cbn [AlternateScreen_do]; try exact D; clear D.
  - unfold AlternateScreen_Draw. cbn [snd]. destruct (usingAlternate a).
    + unfold AlternateScreen_drawTextDirect.
      apply (fold_left_inv (fun st : Mem * AlternateScreen => alternate_rests c l (snd st))); [done|].
      intros [m' a'] ch H'. by apply AlternateScreen_drawTextDirect1_inv.
    + apply on_hist_inv; [done|]. apply (HistoryScreen_do_inv (Draw text)); [apply H|done].
  - unfold AlternateScreen_Linefeed. destruct (usingAlternate a).
    + inv_pre. inv_cases.
    + apply on_hist_inv; [done|]. apply (HistoryScreen_do_inv Linefeed); [apply H|done].
  - unfold AlternateScreen_Reset.
    assert (A : alternate_rests c l (if usingAlternate a then AlternateScreen_switchToMain a else a)).
    { destruct (usingAlternate a); [by apply AlternateScreen_switchToMain_inv|done]. }
    revert A. generalize (if usingAlternate a then AlternateScreen_switchToMain a else a).
    intros a' A.
    pose proof (on_hist_inv HistoryScreen_Reset m a' A
                  (HistoryScreen_do_inv Reset m a' (proj1 A) I)) as B.
    destruct (on_hist HistoryScreen_Reset (m, a')) as [m2 a2]. cbn [snd] in B.
    unfold new_tabmap. inv_split.
  - unfold AlternateScreen_Index. destruct (usingAlternate a).
    + inv_pre. inv_cases.
    + apply on_hist_inv; [done|]. apply (HistoryScreen_do_inv Index); [apply H|done].
  - unfold AlternateScreen_SetMode.
    assert (A : alternate_rests c l
              (snd (if private
                    then fold_left (fun st mode =>
                           let '(m, a) := st in
                           if is_alt_mode mode then
                             if usingAlternate a then (m, a) else AlternateScreen_switchToAlternate (m, a)
                           else if mode =? 1048 then
                             if usingAlternate a then (m, set_altCursor (cursor a) a)
                             else (m, set_mainCursor (cursor a) a)
                           else (m, a)) modes (m, a)
                    else (m, a)))).
    { destruct private; [|done].
      apply (fold_left_inv (fun st : Mem * AlternateScreen => alternate_rests c l (snd st))); [done|].
      intros [m' a'] mode H'. cbn [snd] in H'.
      destruct (is_alt_mode mode).
      - destruct (usingAlternate a'); [done|by apply AlternateScreen_switchToAlternate_inv].
      - zcase; [|done]. destruct (usingAlternate a'); inv_split. }
    destruct (if private then _ else _) as [m' a']. cbn [snd] in *.
    pose proof (NativeScreen_do_inv (SetMode modes private) m' a' (proj1 (proj1 A)) I) as B.
    cbn [NativeScreen_do snd] in B. cbn [snd]. by apply on_native_rests.
  - unfold AlternateScreen_ResetMode. cbn [snd].
    assert (A : alternate_rests c l
              (if private
               then fold_left (fun a mode =>
                      if is_alt_mode mode then
                        if usingAlternate a then AlternateScreen_switchToMain a else a
                      else if mode =? 1048 then
                        if usingAlternate a then on_native (set_cursor (altCursor a)) a
                        else on_native (set_cursor (mainCursor a)) a
                      else a) modes a
               else a)).
    { destruct private; [|done].
      apply (fold_left_inv (alternate_rests c l)); [done|].
      intros a' mode H'.
      destruct (is_alt_mode mode).
      - destruct (usingAlternate a'); [by apply AlternateScreen_switchToMain_inv|done].
      - zcase; [|done]. destruct (usingAlternate a'); inv_split. }
    revert A. generalize (if private then fold_left (fun a mode =>
                      if is_alt_mode mode then
                        if usingAlternate a then AlternateScreen_switchToMain a else a
                      else if mode =? 1048 then
                        if usingAlternate a then on_native (set_cursor (altCursor a)) a
                        else on_native (set_cursor (mainCursor a)) a
                      else a) modes a
               else a). intros a' A.
    pose proof (NativeScreen_do_inv (ResetMode modes private) m a' (proj1 (proj1 A)) I) as B.
    cbn [NativeScreen_do snd] in B. by apply on_native_rests.
  - unfold AlternateScreen_ScrollUp. cbn [snd]. destruct (usingAlternate a); [done|].
    apply on_hist_inv; [done|]. apply (HistoryScreen_do_inv (ScrollUp n)); [apply H|done].
  - unfold AlternateScreen_ScrollDown. cbn [snd]. destruct (usingAlternate a); [done|].
    apply on_hist_inv; [done|]. apply (HistoryScreen_do_inv (ScrollDown n)); [apply H|done].
  - cbn [fst snd]. unfold AlternateScreen_ScrollToBottom. destruct (usingAlternate a); [done|].
    apply alternate_rests_set_hist; [|apply H..].
    apply (HistoryScreen_do_inv ScrollToBottom m); [apply H|done].
Qed.

Lemma WideCharScreen_drawChar_inv RuneWidth ch m (w : WideCharScreen) :
  2 <= c -> 0 <= RuneWidth ch <= 2 ->
  alternate_rests c l w -> alternate_rests c l (snd (WideCharScreen_drawChar RuneWidth ch (m, w))).
Proof.
  intros H2 HW H. unfold WideCharScreen_drawChar, WideCharScreen_handleZeroWidth.
  inv_pre. inv_cases.
Qed.

Lemma skip_continuations_range g y fuel x :
  0 <= x <= int_max -> 0 <= skip_continuations g y fuel x <= x.
Proof.
  revert x. induction fuel as [|fuel IH]; intros x Hx; simpl; [lia|].
  destruct (0 <? x) eqn:E; simpl; [|lia].
  apply Z.ltb_lt in E. destruct (cell 0 g y x =? 0); [|lia].
  rewrite isub_small by int_lia. specialize (IH (x - 1) ltac:(lia)). lia.
Qed.

Lemma set_alt_inv (w : WideCharScreen) (a : AlternateScreen) :
  alternate_rests c l a -> alternate_rests c l (set_alt a w).
Proof. done. Qed.

Lemma WideCharScreen_do_inv RuneWidth op m (w : WideCharScreen) :
  2 <= c -> (forall ch, 0 <= RuneWidth ch <= 2) ->
  alternate_rests c l w -> count_ok c l op ->
  alternate_rests c l (snd (WideCharScreen_do RuneWidth op (m, w))).
Proof.
  intros H2 HW H Hop.
  assert (D : alternate_rests c l (snd (on_alt (AlternateScreen_do op) (m, w)))).
  { unfold on_alt. pose proof (AlternateScreen_do_inv op m w H Hop) as A.
    by destruct (AlternateScreen_do op (m, alt w)) as [m' a']. }
  destruct op; cbn [WideCharScreen_do]; try exact D; clear D.
  - unfold WideCharScreen_Draw.
    apply (fold_left_inv (fun st : Mem * WideCharScreen => alternate_rests c l (snd st))).
    + cbn [snd]. destruct (negb (usingAlternate w) && viewingHistory w); [|done].
      cbn [alt set_alt]. apply (AlternateScreen_do_inv ScrollToBottom m w H I).
    + intros [m' w'] ch H'. by apply WideCharScreen_drawChar_inv.
  - cbn [fst snd]. unfold WideCharScreen_CursorForward. cbn [alt set_alt].
    apply on_native_rests; [done|].
    match goal with |- context [for_break ?i ?c0 ?b ?x0] =>
      assert (A : 0 <= for_break i c0 b x0 <= c + 1); [|revert A; generalize (for_break i c0 b x0)]
    end.
    { apply (for_break_ind (fun x => 0 <= x <= c + 1)).
      - inv_pre. lia.
      - intros i x Hx Hr. inv_pre. revert Hx. int_simpl. intros Hx%Z.ltb_lt.
        zcase; int_simpl; lia. }
    intros x A. inv_pre. inv_cases.
  - cbn [fst snd]. unfold WideCharScreen_CursorBack. cbn [alt set_alt].
    apply on_native_rests; [done|].
    match goal with |- context [for_break ?i ?c0 ?b ?x0] =>
      assert (A : 0 <= for_break i c0 b x0 <= c); [|revert A; generalize (for_break i c0 b x0)]
    end.
    { apply (for_break_ind (fun x => 0 <= x <= c)).
      - inv_pre. lia.
      - intros i x Hx%Z.ltb_lt Hr. cbv zeta. rewrite isub_small by int_lia.
        pose proof (skip_continuations_range (cw m w) (Y (cursor w)) (Z.to_nat (x - 1)) (x - 1)
                      ltac:(int_lia)). lia. }
    intros x A. inv_pre. inv_cases.
Qed.

End Inv.

Lemma run_inv {S} (P : S -> Prop) (Q : Op -> Prop) (step : Op -> S -> S) ops st :
  Forall Q ops -> (forall op st, Q op -> P st -> P (step op st)) -> P st -> P (run step ops st).
Proof.
  intros HQ Hstep. revert st. unfold run.
  induction HQ as [|op ops Hop HQ IH]; intros st H; simpl; [done|].
  apply IH. by apply Hstep.
Qed.


Lemma new_screens_rest c l maxHistory m :
  0 < c -> 0 < l ->
  native_rests c l (snd (NewNativeScreen c l m)) /\
  history_rests c l (snd (NewHistoryScreen c l maxHistory m)) /\
  alternate_rests c l (snd (NewAlternateScreen c l maxHistory m)) /\
  alternate_rests c l (snd (NewWideCharScreen c l maxHistory m)).
Proof.
  intros Hc Hl.
  assert (G : on_grid c l zeroCursor) by (unfold on_grid; simpl; lia).
  assert (N : forall s, s = mkNativeScreen c l (buffer s) (attrs s) zeroCursor None "" "" true true (tabStops s) ->
              native_rests c l s).
  { intros s ->. by refine (conj _ (conj _ (conj _ _))). }
  assert (H : forall (h : HistoryScreen), native_rests c l h -> savedCursor h = zeroCursor ->
              history_rests c l h).
  { intros h Hn E. split; [done|by rewrite E]. }
  assert (A : forall (a : AlternateScreen), history_rests c l a ->
              mainCursor a = zeroCursor -> altCursor a = zeroCursor -> alternate_rests c l a).
  { intros a Hh E1 E2. split; [done|by rewrite E1, E2]. }
  split; [by apply N|]. split; [apply H; [by apply N|done]|].
  split; (apply A; [apply H; [by apply N|done]|done..]).
Qed.

(** C1, as the code behaves: on a screen built by the constructor of its
    layer, after any sequence of calls of the Screen interface and of
    ScrollUp, ScrollDown and ScrollToBottom in which the counts of the
    relative cursor moves (CursorUp, CursorDown, CursorForward, CursorBack,
    CursorUp1, CursorDown1) are not negative, the screen has its
    dimensions of construction and the cursor is on a row of the grid, in
    a column of the grid or one past the last: [0 <= x <= columns] and
    [0 <= y <= lines - 1].  The column is [columns], not [columns - 1],
    right after a character was written into the last column: the wrap is
    done by the next character.  On the wide-character layer this needs a
    screen of at least two columns. *)
Theorem cursor_rests_between_operations
    (RuneWidth : rune -> Z) (c l maxHistory : Z) (ops : list Op) (m : Mem) :
  0 < c -> c + 2 <= int_max -> 0 < l -> l + 2 <= int_max ->
  (forall ch, 0 <= RuneWidth ch <= 2) ->
  Forall (count_ok c l) ops ->
  (let st := run NativeScreen_do ops (NewNativeScreen c l m) in
   columns (snd st) = c /\ lines (snd st) = l /\
   0 <= X (cursor (snd st)) <= c /\ 0 <= Y (cursor (snd st)) <= l - 1) /\
  (let st := run HistoryScreen_do ops (NewHistoryScreen c l maxHistory m) in
   columns (snd st) = c /\ lines (snd st) = l /\
   0 <= X (cursor (snd st)) <= c /\ 0 <= Y (cursor (snd st)) <= l - 1) /\
  (let st := run AlternateScreen_do ops (NewAlternateScreen c l maxHistory m) in
   columns (snd st) = c /\ lines (snd st) = l /\
   0 <= X (cursor (snd st)) <= c /\ 0 <= Y (cursor (snd st)) <= l - 1) /\
  (2 <= c ->
   let st := run (WideCharScreen_do RuneWidth) ops (NewWideCharScreen c l maxHistory m) in
   columns (snd st) = c /\ lines (snd st) = l /\
   0 <= X (cursor (snd st)) <= c /\ 0 <= Y (cursor (snd st)) <= l - 1).
Proof.
  intros Dc Dc' Dl Dl' HW Hops. cbv zeta.
  destruct (new_screens_rest c l maxHistory m Dc Dl) as (N & H & A & W).
  assert (Out : forall s : NativeScreen, native_rests c l s ->
            columns s = c /\ lines s = l /\
            0 <= X (cursor s) <= c /\ 0 <= Y (cursor s) <= l - 1).
  { intros s (Ec & El & (Hx & Hy) & _). done. }
  split; [|split; [|split]].
  - apply Out.
    apply (run_inv (fun st : Mem * NativeScreen => native_rests c l (snd st)) _ _ _ _ Hops); [|done].
    intros op [m' s'] Hop H'. by apply NativeScreen_do_inv.
  - apply Out.
    apply (run_inv (fun st : Mem * HistoryScreen => history_rests c l (snd st)) _ _ _ _ Hops); [|done].
    intros op [m' s'] Hop H'. by apply HistoryScreen_do_inv.
  - apply Out.
    apply (run_inv (fun st : Mem * AlternateScreen => alternate_rests c l (snd st)) _ _ _ _ Hops); [|done].
    intros op [m' s'] Hop H'. by apply AlternateScreen_do_inv.
  - intros H2. apply Out.
    apply (run_inv (fun st : Mem * WideCharScreen => alternate_rests c l (snd st)) _ _ _ _ Hops); [|done].
    intros op [m' s'] Hop H'. by apply WideCharScreen_do_inv.
Qed.

Lemma cursor_rests_between_operations_witness :
  (let st := run NativeScreen_do
               [Draw [65; 66; 67; 68]; CursorDown 3; CursorForward 9; Tab; Draw [69];
                CursorUp 5; CursorBack 1; Linefeed; Reset]
               (NewNativeScreen 4 2 emptyMem) in
   columns (snd st) = 4 /\ lines (snd st) = 2 /\
   0 <= X (cursor (snd st)) <= 4 /\ 0 <= Y (cursor (snd st)) <= 2 - 1) /\
  (let st := run HistoryScreen_do
               [Draw [65; 66; 67; 68]; CursorDown 3; CursorForward 9; Tab; Draw [69];
                CursorUp 5; CursorBack 1; Linefeed; Reset]
               (NewHistoryScreen 4 2 10 emptyMem) in
   columns (snd st) = 4 /\ lines (snd st) = 2 /\
   0 <= X (cursor (snd st)) <= 4 /\ 0 <= Y (cursor (snd st)) <= 2 - 1) /\
  (let st := run AlternateScreen_do
               [Draw [65; 66; 67; 68]; CursorDown 3; CursorForward 9; Tab; Draw [69];
                CursorUp 5; CursorBack 1; Linefeed; Reset]
               (NewAlternateScreen 4 2 10 emptyMem) in
   columns (snd st) = 4 /\ lines (snd st) = 2 /\
   0 <= X (cursor (snd st)) <= 4 /\ 0 <= Y (cursor (snd st)) <= 2 - 1) /\
  (2 <= 4 ->
   let st := run (WideCharScreen_do sampleRuneWidth)
               [Draw [65; 66; 67; 68]; CursorDown 3; CursorForward 9; Tab; Draw [69];
                CursorUp 5; CursorBack 1; Linefeed; Reset]
               (NewWideCharScreen 4 2 10 emptyMem) in
   columns (snd st) = 4 /\ lines (snd st) = 2 /\
   0 <= X (cursor (snd st)) <= 4 /\ 0 <= Y (cursor (snd st)) <= 2 - 1).
Proof.
  apply cursor_rests_between_operations.
  - lia.
  - rewrite int_max_val. lia.
  - lia.
  - rewrite int_max_val. lia.
  - intros ch. unfold sampleRuneWidth. repeat case_match; lia.
  - repeat (apply List.Forall_cons; [simpl; rewrite ?int_max_val; lia|]). apply List.Forall_nil.
Defined.

(** C1, as stated, fails: on a 4 x 2 screen, after "ABCD" the reported cursor
    column is 4, on the base layer and on the wide-character layer.  And a
    negative count takes the cursor off the grid: on the new screen
    CursorDown(-1) leaves it on row -1 and CursorUp(-5) on row 5. *)
Lemma cursor_bound_of_the_specification_fails :
  let st := NewWideCharScreen 4 2 10 emptyMem in
  let n := NativeScreen_Draw [65; 66; 67; 68] (fst st, native (snd st)) in
  let w := WideCharScreen_Draw sampleRuneWidth [65; 66; 67; 68] st in
  NativeScreen_GetCursor (snd n) = (4, 0) /\ GetCursor (snd w) = (4, 0) /\
  ~ cursor_inside (snd n) (cursor (snd n)) /\ ~ cursor_inside (snd w) (cursor (snd w)) /\
  GetCursor (snd (WideCharScreen_do sampleRuneWidth (CursorDown (-1)) st)) = (0, -1) /\
  GetCursor (snd (WideCharScreen_do sampleRuneWidth (CursorUp (-5)) st)) = (0, 5).
Proof.
  cbv zeta. split; [reflexivity|]. split; [reflexivity|].
  split; [|split; [|split; reflexivity]]; intros [[_ H] _]; vm_compute in H; by apply H.
Qed.

(** ** Blank grids and erasing *)

Section GridFill.
Context {A : Type}.
Implicit Types (g : list (list A)) (v z : A).

Lemma cell_out_of_rows z g y x : Z.of_nat (length g) <= y -> cell z g y x = z.
Proof.
  intros H. unfold cell, row. destruct (0 <=? x); [|done].
  destruct (0 <=? y); [|done]. rewrite (lookup_ge_None_2 g) by lia. done.
Qed.

Lemma cell_negative z g y x : y < 0 \/ x < 0 -> cell z g y x = z.
Proof.
  intros H. unfold cell, row. destruct (Z.leb_spec 0 x); [|done].
  destruct (Z.leb_spec 0 y); [lia|done].
Qed.

Lemma cell_fill_row z c l g y v y' x' :
  shaped c l g -> 0 <= y < l -> 0 <= c ->
  cell z (fill_row c y v g) y' x' =
  if decide (y' = y /\ 0 <= x' < c) then v else cell z g y' x'.
Proof.
  intros S Hy Hc. unfold fill_row.
  pose (P := fun (i : Z) (g' : list (list A)) =>
    shaped c l g' /\
    forall y' x', cell z g' y' x' =
      if decide (y' = y /\ 0 <= x' < i) then v else cell z g y' x').
  enough (HP : P c (for_range 0 c (fun x g0 => set_cell g0 y x v) g)) by apply HP.
  apply (for_range_ind_idx P 0 c); [done| |].
  - split; [done|]. intros. case_decide; [lia|done].
  - intros i g' Hi [S' IH]. split; [by apply shaped_set_cell|].
    intros y1 x1. destruct (decide ((y, i) = (y1, x1))) as [[= <- <-]|Hne].
    + rewrite cell_set_cell_eq; [|lia|lia|].
      * case_decide; [done|lia].
      * rewrite (shaped_row _ _ _ _ S') by lia. lia.
    + rewrite cell_set_cell_ne by done. rewrite IH.
      repeat case_decide; try done; try lia.
      exfalso. apply Hne. f_equal; lia.
Qed.

Lemma cell_fill_grid z c l g v y' x' :
  shaped c l g -> 0 <= c -> 0 <= l ->
  cell z (fill_grid c l v g) y' x' =
  if decide (0 <= y' < l /\ 0 <= x' < c) then v else cell z g y' x'.
Proof.
  intros S Hc Hl. unfold fill_grid.
  pose (P := fun (i : Z) (g' : list (list A)) =>
    shaped c l g' /\
    forall y' x', cell z g' y' x' =
      if decide (0 <= y' < i /\ 0 <= x' < c) then v else cell z g y' x').
  enough (HP : P l (for_range 0 l (fun y g0 => fill_row c y v g0) g)) by apply HP.
  apply (for_range_ind_idx P 0 l); [done| |].
  - split; [done|]. intros. case_decide; [lia|done].
  - intros i g' Hi [S' IH]. split; [by apply shaped_fill_row|].
    intros y1 x1. rewrite (cell_fill_row z c l) by (done || lia). rewrite IH.
    repeat case_decide; try done; lia.
Qed.

(** Two grids of one shape with the same cells are the same grid. *)
Lemma shaped_ext z c l g g' :
  shaped c l g -> shaped c l g' ->
  (forall y x, 0 <= y < l -> 0 <= x < c -> cell z g y x = cell z g' y x) ->
  g = g'.
Proof.
  intros [L F] [L' F'] H. apply list_eq_same_length with (Z.to_nat l); [exact L'|exact L|].
  intros i r r' Hi Hr Hr'.
  rewrite Forall_lookup in F, F'.
  apply list_eq_same_length with (Z.to_nat c); [by eapply F'|by eapply F|].
  intros j a a' Hj Ha Ha'.
  specialize (H (Z.of_nat i) (Z.of_nat j)). unfold cell, row in H.
  rewrite !(proj2 (Z.leb_le 0 _)), !Nat2Z.id in H by lia.
  rewrite Hr, Hr' in H. simpl in H. rewrite Ha, Ha' in H. simpl in H.
  apply H; lia.
Qed.

Lemma shaped_make z c l : 0 <= c -> 0 <= l -> shaped c l (make (make z c) l).
Proof.
  intros Hc Hl. split; [apply length_replicate|].
  apply Forall_replicate. apply length_replicate.
Qed.

Lemma cell_make z c l y x :
  0 <= y < l -> 0 <= x < c -> cell z (make (make z c) l) y x = z.
Proof.
  intros Hy Hx. unfold cell, row, make.
  rewrite !(proj2 (Z.leb_le 0 _)) by lia.
  rewrite lookup_replicate_2 by lia. simpl. rewrite lookup_replicate_2 by lia. done.
Qed.

End GridFill.

Lemma blank_runes_shaped c l : 0 <= c -> 0 <= l -> shaped c l (blank_runes c l).
Proof. intros. apply shaped_fill_grid. by apply shaped_make. Qed.

Lemma blank_runes_cell c l y x :
  0 <= y < l -> 0 <= x < c -> cell 0 (blank_runes c l) y x = space.
Proof.
  intros Hy Hx. unfold blank_runes.
  rewrite (cell_fill_grid 0 c l) by (first [apply shaped_make; lia|lia]).
  case_decide; [done|lia].
Qed.

Lemma elem_of_default_tabs c x : x ∈ default_tabs c <-> 0 <= x < c /\ x mod 8 = 0.
Proof.
  unfold default_tabs. rewrite elem_of_list_to_set, list_elem_of_filter, elem_of_seqZ.
  split; intros [? ?]; split; (lia || done).
Qed.

Ltac mem_simpl :=
  cbn [fst snd set_runes set_styles set_widths set_tabmaps set_lists
       runes styles widths tabmaps lists
       native hist alt buffer attrs tabStops history cellWidths
       columns lines cursor maxHistory savedCursor] in *.

(** X1: the constructors build a well-formed, live main screen: every
    character is a space, every cell has the zero attributes (not
    DefaultAttributes) and width 1, the cursor is at the origin with
    autowrap and newline mode on, the history is empty, and the tab stops
    are the multiples of 8 below the number of columns. *)
Theorem NewWideCharScreen_blank (c l mh : Z) (m : Mem) :
  0 < c -> c + 2 <= int_max -> 0 < l -> l + 2 <= int_max ->
  0 <= mh -> mh + l <= int_max ->
  let st := NewWideCharScreen c l mh m in
  wf_history (fst st) (snd st) /\ live (snd st) /\ usingAlternate (snd st) = false /\
  (forall y x, 0 <= y < l -> 0 <= x < c ->
     cell 0 (buf (fst st) (snd st)) y x = space /\
     cell DefaultAttributes (att (fst st) (snd st)) y x = zeroAttributes /\
     cell 0 (cw (fst st) (snd st)) y x = 1) /\
  cursor (snd st) = zeroCursor /\
  autoWrap (snd st) = true /\ newlineMode (snd st) = true /\
  GetHistorySize (fst st) (snd st) = 0 /\
  (forall x, x ∈ tabs (fst st) (snd st) <-> 0 <= x < c /\ x mod 8 = 0).
Proof.
  intros Hc Hc' Hl Hl' Hm Hm'. cbv zeta.
  unfold NewWideCharScreen, NewAlternateScreen, NewHistoryScreen, NewNativeScreen,
    new_runes, new_styles, new_widths, new_tabmap, new_list.
  cbn [fst snd set_runes set_styles set_widths set_tabmaps set_lists
       runes styles widths tabmaps lists].
  assert (Eb : forall (B : Type) (z : B) (h : list B) (a b : B),
             load z ((h ++ [a]) ++ [b]) (Some (length h)) = a).
  { intros. rewrite load_app_old by apply valid_new. apply load_app_new. }
  assert (Vb : forall (B : Type) (h : list B) (a b : B),
             valid ((h ++ [a]) ++ [b]) (Some (length h))).
  { intros. apply valid_app, valid_new. }
  split; [|split; [|split; [|split; [|split; [|split; [|split; [|split]]]]]]].
  - split; [split|..]; unfold buf, att, history_Len, hist_lines; mem_simpl;
      rewrite ?Eb, ?load_app_new; try apply Vb; try apply valid_new.
    all: first [ apply blank_runes_shaped; lia | apply shaped_make; lia
               | unfold dims_ok, cursor_ok; simpl; lia ].
  - split; reflexivity.
  - reflexivity.
  - intros y x Hy Hx. unfold buf, att, cw. mem_simpl.
    rewrite !Eb. split; [by apply blank_runes_cell|]. split.
    + unfold cell, row, make. rewrite !(proj2 (Z.leb_le 0 _)) by lia.
      rewrite lookup_replicate_2 by lia. simpl. by rewrite lookup_replicate_2 by lia.
    + rewrite (cell_fill_grid 0 c l) by (first [apply shaped_make; lia|lia]).
      case_decide; [done|lia].
  - reflexivity.
  - reflexivity.
  - reflexivity.
  - unfold GetHistorySize, HistoryScreen_GetHistorySize, history_Len, hist_lines.
    mem_simpl. by rewrite load_app_new.
  - intros x. unfold tabs. mem_simpl. rewrite Eb.
    apply elem_of_default_tabs.
Qed.

Section RangeFill.
Context {A : Type}.
Implicit Types (g : list (list A)) (v z : A).

Lemma for_range_empty {S} lo hi (body : Z -> S -> S) (s : S) :
  hi <= lo -> for_range lo hi body s = s.
Proof. intros H. unfold for_range. by rewrite seqZ_nil by lia. Qed.

(** Writing [v] into the columns [lo .. hi - 1] of row [y]. *)
Lemma cell_fill_columns z c l g y v lo hi y' x' :
  shaped c l g -> 0 <= y < l -> 0 <= lo -> hi <= c ->
  cell z (for_range lo hi (fun x b => set_cell b y x v) g) y' x' =
  if decide (y' = y /\ lo <= x' < hi) then v else cell z g y' x'.
Proof.
  intros S Hy Hlo Hhi.
  destruct (decide (hi <= lo)) as [Hle|Hgt].
  { rewrite for_range_empty by done. case_decide; [lia|done]. }
  pose (P := fun (i : Z) (g' : list (list A)) =>
    shaped c l g' /\
    forall y' x', cell z g' y' x' =
      if decide (y' = y /\ lo <= x' < i) then v else cell z g y' x').
  enough (HP : P hi (for_range lo hi (fun x g0 => set_cell g0 y x v) g)) by apply HP.
  apply (for_range_ind_idx P lo hi); [lia| |].
  - split; [done|]. intros. case_decide; [lia|done].
  - intros i g' Hi [S' IH]. split; [by apply shaped_set_cell|].
    intros y1 x1. destruct (decide ((y, i) = (y1, x1))) as [[= <- <-]|Hne].
    + rewrite cell_set_cell_eq; [|lia|lia|].
      * case_decide; [done|lia].
      * rewrite (shaped_row _ _ _ _ S') by lia. lia.
    + rewrite cell_set_cell_ne by done. rewrite IH.
      repeat case_decide; try done; try lia.
      exfalso. apply Hne. f_equal; lia.
Qed.

Lemma shaped_fill_columns c l g y v lo hi :
  shaped c l g -> shaped c l (for_range lo hi (fun x b => set_cell b y x v) g).
Proof.
  intros S. apply for_range_ind; [done|]. intros. by apply shaped_set_cell.
Qed.

(** Writing [v] into every column of the rows [lo .. hi - 1]. *)
Lemma cell_fill_rows z c l g v lo hi y' x' :
  shaped c l g -> 0 <= c -> 0 <= lo -> hi <= l ->
  cell z (for_range lo hi (fun y b => fill_row c y v b) g) y' x' =
  if decide (lo <= y' < hi /\ 0 <= x' < c) then v else cell z g y' x'.
Proof.
  intros S Hc Hlo Hhi.
  destruct (decide (hi <= lo)) as [Hle|Hgt].
  { rewrite for_range_empty by done. case_decide; [lia|done]. }
  pose (P := fun (i : Z) (g' : list (list A)) =>
    shaped c l g' /\
    forall y' x', cell z g' y' x' =
      if decide (lo <= y' < i /\ 0 <= x' < c) then v else cell z g y' x').
  enough (HP : P hi (for_range lo hi (fun y g0 => fill_row c y v g0) g)) by apply HP.
  apply (for_range_ind_idx P lo hi); [lia| |].
  - split; [done|]. intros. case_decide; [lia|done].
  - intros i g' Hi [S' IH]. split; [by apply shaped_fill_row|].
    intros y1 x1. rewrite (cell_fill_row z c l) by (done || lia). rewrite IH.
    repeat case_decide; try done; lia.
Qed.

Lemma shaped_fill_rows c l g v c' lo hi :
  shaped c l g -> shaped c l (for_range lo hi (fun y b => fill_row c' y v b) g).
Proof.
  intros S. apply for_range_ind; [done|]. intros. by apply shaped_fill_row.
Qed.

End RangeFill.

(** A loop that stops at the first index above [X] is the loop up to [X]. *)
Lemma for_break_upto {S} lo n X (body : Z -> S -> S) (s : S) :
  for_break (seqZ lo n) (fun x _ => x <=? X) body s =
  for_range lo (Z.min (lo + n) (X + 1)) body s.
Proof.
  remember (Z.to_nat n) as k eqn:Ek. revert lo n s Ek.
  induction k as [|k IH]; intros lo n s Ek.
  - rewrite seqZ_nil by lia. simpl. by rewrite for_range_empty by lia.
  - rewrite seqZ_cons by lia. simpl. destruct (Z.leb_spec lo X).
    + rewrite IH by lia. unfold for_range.
      rewrite (seqZ_cons lo) by lia. simpl.
      f_equal. f_equal. lia.
    + by rewrite for_range_empty by lia.
Qed.

Lemma wf_native_put_buf g m (s : NativeScreen) :
  wf_native m s -> shaped (columns s) (lines s) g -> wf_native (put_buf g m s) s.
Proof.
  intros [D C Vb Va Vt Sb Sa] Sg. split; try done.
  - unfold put_buf. simpl. by apply valid_store.
  - by rewrite buf_put_buf.
Qed.

Lemma wf_native_put_att g m (s : NativeScreen) :
  wf_native m s -> shaped (columns s) (lines s) g -> wf_native (put_att g m s) s.
Proof.
  intros [D C Vb Va Vt Sb Sa] Sg. split; try done.
  - unfold put_att. simpl. by apply valid_store.
  - by rewrite att_put_att.
Qed.

(** What [EraseInLine] does to the characters. *)
Lemma EraseInLine_cells how m (s : NativeScreen) :
  wf_native m s ->
  wf_native (NativeScreen_EraseInLine how m s) s /\
  forall y x,
    cell 0 (buf (NativeScreen_EraseInLine how m s) s) y x =
    if decide (y = Y (cursor s) /\ 0 <= x < columns s /\
               (how = 0 /\ X (cursor s) <= x \/ how = 1 /\ x <= X (cursor s) \/ how = 2))
    then space else cell 0 (buf m s) y x.
Proof.
  intros W. pose proof W as [D C Vb Va Vt Sb Sa].
  unfold dims_ok, cursor_ok in D, C. unfold NativeScreen_EraseInLine.
  destruct (Z.eqb_spec how 0) as [->|H0]; [|destruct (Z.eqb_spec how 1) as [->|H1];
    [|destruct (Z.eqb_spec how 2) as [->|H2]]].
  - split; [by apply wf_native_put_buf, shaped_fill_columns|].
    intros y x. rewrite buf_put_buf by done.
    rewrite (cell_fill_columns 0 (columns s) (lines s)) by (done || lia).
    repeat case_decide; try done; lia.
  - rewrite for_break_upto.
    split; [by apply wf_native_put_buf, shaped_fill_columns|].
    intros y x. rewrite buf_put_buf by done.
    rewrite (cell_fill_columns 0 (columns s) (lines s)) by (done || lia).
    repeat case_decide; try done; lia.
  - split; [by apply wf_native_put_buf, shaped_fill_row|].
    intros y x. rewrite buf_put_buf by done.
    rewrite (cell_fill_row 0 (columns s) (lines s)) by (done || lia).
    repeat case_decide; try done; lia.
  - split; [done|]. intros y x. case_decide; [lia|done].
Qed.

Lemma EraseInDisplay_cells how m (s : NativeScreen) :
  wf_native m s ->
  wf_native (NativeScreen_EraseInDisplay how m s) s /\
  forall y x,
    cell 0 (buf (NativeScreen_EraseInDisplay how m s) s) y x =
    if decide (0 <= y < lines s /\ 0 <= x < columns s /\
               (how = 0 /\ (y = Y (cursor s) /\ X (cursor s) <= x \/ Y (cursor s) < y) \/
                how = 1 /\ (y = Y (cursor s) /\ x <= X (cursor s) \/ y < Y (cursor s)) \/
                how = 2 \/ how = 3))
    then space else cell 0 (buf m s) y x.
Proof.
  intros W. pose proof W as [D C Vb Va Vt Sb Sa].
  unfold dims_ok, cursor_ok in D, C. unfold NativeScreen_EraseInDisplay.
  destruct (Z.eqb_spec how 0) as [->|H0]; [|destruct (Z.eqb_spec how 1) as [->|H1];
    [|destruct (Z.eqb_spec how 2) as [->|H2]; [|destruct (Z.eqb_spec how 3) as [->|H3]]]];
    cbn [orb].
  - destruct (EraseInLine_cells 0 m s W) as [W1 E1].
    set (m1 := NativeScreen_EraseInLine 0 m s) in *.
    pose proof W1 as [_ _ Vb1 _ _ Sb1 _].
    split; [by apply wf_native_put_buf, shaped_fill_rows|].
    intros y x. rewrite buf_put_buf by done. int_simpl.
    rewrite (cell_fill_rows 0 (columns s) (lines s)) by (done || lia).
    rewrite E1. repeat case_decide; try done; lia.
  - destruct (EraseInLine_cells 1 m s W) as [W1 E1].
    set (m1 := NativeScreen_EraseInLine 1 m s) in *.
    pose proof W1 as [_ _ Vb1 _ _ Sb1 _].
    split; [by apply wf_native_put_buf, shaped_fill_rows|].
    intros y x. rewrite buf_put_buf by done.
    rewrite (cell_fill_rows 0 (columns s) (lines s)) by (done || lia).
    rewrite E1. repeat case_decide; try done; lia.
  - split; [by apply wf_native_put_buf, shaped_fill_grid|].
    intros y x. rewrite buf_put_buf by done.
    rewrite (cell_fill_grid 0 (columns s) (lines s)) by (done || lia).
    repeat case_decide; try done; lia.
  - split; [by apply wf_native_put_buf, shaped_fill_grid|].
    intros y x. rewrite buf_put_buf by done.
    rewrite (cell_fill_grid 0 (columns s) (lines s)) by (done || lia).
    repeat case_decide; try done; lia.
  - split; [done|]. intros y x. case_decide; [lia|done].
Qed.

Lemma EraseInLine_other_heaps how m (s : NativeScreen) :
  let m' := NativeScreen_EraseInLine how m s in
  styles m' = styles m /\ widths m' = widths m /\ tabmaps m' = tabmaps m /\ lists m' = lists m.
Proof.
  cbv zeta. unfold NativeScreen_EraseInLine.
  repeat match goal with |- context [if ?b then _ else _] => destruct b end;
    repeat split; reflexivity.
Qed.

Lemma EraseInDisplay_other_heaps how m (s : NativeScreen) :
  let m' := NativeScreen_EraseInDisplay how m s in
  styles m' = styles m /\ widths m' = widths m /\ tabmaps m' = tabmaps m /\ lists m' = lists m.
Proof.
  cbv zeta. unfold NativeScreen_EraseInDisplay.
  repeat match goal with |- context [if ?b then _ else _] => destruct b end;
    cbn [put_buf set_runes styles widths tabmaps lists];
    try apply EraseInLine_other_heaps; repeat split; reflexivity.
Qed.

(** X3: EraseInDisplay on a live history screen turns into spaces the
    characters from the cursor to the end of the screen ([how = 0]), from
    the start of the screen to the cursor included ([how = 1]) or of the
    whole screen ([how = 2] or [3]), and no character for another [how]; it
    leaves every attribute and the cursor as they were; for 2 and 3 it also
    empties the history and zeroes the scroll offset, and otherwise keeps
    the history. *)
Theorem HistoryScreen_EraseInDisplay_erases how m (h : HistoryScreen) :
  wf_history m h -> live h ->
  let st := HistoryScreen_EraseInDisplay how (m, h) in
  (forall y x,
     cell 0 (buf (fst st) (snd st)) y x =
     if decide (0 <= y < lines h /\ 0 <= x < columns h /\
                (how = 0 /\ (y = Y (cursor h) /\ X (cursor h) <= x \/ Y (cursor h) < y) \/
                 how = 1 /\ (y = Y (cursor h) /\ x <= X (cursor h) \/ y < Y (cursor h)) \/
                 how = 2 \/ how = 3))
     then space else cell 0 (buf m h) y x) /\
  att (fst st) (snd st) = att m h /\
  cursor (snd st) = cursor h /\
  (how = 2 \/ how = 3 ->
   HistoryScreen_GetHistorySize (fst st) (snd st) = 0 /\ historyPos (snd st) = 0) /\
  (how <> 2 -> how <> 3 -> hist_lines (fst st) (snd st) = hist_lines m h).
Proof.
  intros [W Vh Hm Hl Sc] [Hv Hp]. cbv zeta. unfold HistoryScreen_EraseInDisplay.
  rewrite Hv.
  destruct (EraseInDisplay_cells how m h W) as [W1 E1].
  destruct (EraseInDisplay_other_heaps how m h) as (Es & _ & _ & El).
  set (m1 := NativeScreen_EraseInDisplay how m h) in *.
  assert (Ea : att m1 h = att m h) by (unfold att; by rewrite Es).
  assert (Vh1 : valid (lists m1) (history h)) by (by rewrite El).
  destruct ((how =? 2) || (how =? 3)) eqn:E; cbn [fst snd].
  - split; [exact E1|]. split; [exact Ea|]. split; [reflexivity|]. split.
    + intros _. unfold HistoryScreen_GetHistorySize, history_Len, hist_lines, put_hist.
      cbn [set_historyPos history historyPos lists set_lists].
      destruct Vh1 as (i & Ei & Hi). rewrite Ei.
      rewrite load_store_eq by (by exists i). done.
    + intros H2 H3. apply orb_true_iff in E as [E|E]; apply Z.eqb_eq in E; lia.
  - split; [exact E1|]. split; [exact Ea|]. split; [reflexivity|]. split.
    + intros [H|H]; subst how; discriminate E.
    + intros _ _. unfold hist_lines. by rewrite El.
Qed.

(** X2: EraseInLine turns into spaces the characters of the cursor's row
    from the cursor on ([how = 0]), up to the cursor included ([how = 1]) or
    all of them ([how = 2]); it changes nothing for another [how], and it
    never changes an attribute. *)
Theorem EraseInLine_erases how m (s : NativeScreen) :
  wf_native m s ->
  let m' := NativeScreen_EraseInLine how m s in
  (forall y x,
     cell 0 (buf m' s) y x =
     if decide (y = Y (cursor s) /\ 0 <= x < columns s /\
                (how = 0 /\ X (cursor s) <= x \/ how = 1 /\ x <= X (cursor s) \/ how = 2))
     then space else cell 0 (buf m s) y x) /\
  att m' s = att m s /\
  wf_native m' s.
Proof.
  intros W. cbv zeta. destruct (EraseInLine_cells how m s W) as [W1 E1].
  destruct (EraseInLine_other_heaps how m s) as (Es & _).
  split; [exact E1|]. split; [|exact W1]. unfold att. by rewrite Es.
Qed.

Lemma NewWideCharScreen_blank_witness :
  let st := NewWideCharScreen 4 2 10 emptyMem in
  wf_history (fst st) (snd st) /\ live (snd st) /\ usingAlternate (snd st) = false.
Proof.
  cbv zeta.
  pose proof (NewWideCharScreen_blank 4 2 10 emptyMem) as H. cbv zeta in H.
  destruct H as (H1 & H2 & H3 & _); [rewrite ?int_max_val; lia..|].
  split; [exact H1|]. split; [exact H2|exact H3].
Defined.

Lemma abc_wf_native : wf_native abc_mem abc_scr.
Proof. apply abc_wf. Qed.

Lemma EraseInLine_erases_witness :
  att (NativeScreen_EraseInLine 0 abc_mem abc_scr) abc_scr = att abc_mem abc_scr.
Proof.
  exact (proj1 (proj2 (EraseInLine_erases 0 abc_mem abc_scr abc_wf_native))).
Defined.

Lemma HistoryScreen_EraseInDisplay_erases_witness :
  let st := HistoryScreen_EraseInDisplay 2 (abc_mem, hist abc_scr) in
  att (fst st) (snd st) = att abc_mem abc_scr /\ cursor (snd st) = cursor abc_scr.
Proof.
  cbv zeta.
  pose proof (HistoryScreen_EraseInDisplay_erases 2 abc_mem abc_scr abc_wf) as H.
  cbv zeta in H. destruct H as (_ & H2 & H3 & _); [split; reflexivity|].
  split; [exact H2|exact H3].
Defined.
